(** * PTCGP API: the card query layer of [main.py]

    A shallow embedding of the request handlers of [main.py] and the
    properties of the query layer checked against them.

    The handlers read one global, [cards_data], which is [None] until the
    startup event stores the value returned by [json.load].  Each handler
    is modelled as a function of the value of that global and of its own
    arguments; [None] is [JNull], also what a document [null] loads as.
    What FastAPI does around a handler (routing, the [Query] bounds on
    [limit] and [offset], the serialisation of the returned value) is not
    part of the handlers and is not modelled. *)

From Stdlib Require Import List String Ascii ZArith QArith_base Bool Lia.
From Stdlib Require Import DecimalString.
Import ListNotations.
Local Open Scope string_scope.
Local Open Scope Z_scope.

(** ** Values produced by [json.load]

    A JSON object becomes a Python [dict]: its keys are strings, kept in
    insertion order, so an association list models it (a parsed object has
    pairwise distinct keys; no lemma below relies on that).  A number
    without fraction or exponent becomes an [int], any other a [float].

    A Python [str] is modelled by the Rocq string of the bytes of its UTF-8
    encoding: equality, concatenation and the substring test [in] of two
    [str]s are those of their byte strings.  Case folding is not computed
    from the Unicode tables: see [lower] below.  The length and the slices
    of a [str], which only the listing of a mapping whose ["cards"] is a
    [str] comes to, are counted in bytes, exact on ASCII text.

    The handlers do no arithmetic.  Of a [float] they can only see the text
    [repr] gives for it and the number it compares equal to, so a [float]
    is modelled by these two.  [json.load] gives one and the same object
    for every [NaN] of a document, and a [dict] finds a key that is the
    very object it holds: as a key [NaN] is equal to itself and to nothing
    else. *)

Inductive number : Type :=
| Finite : Q -> number
| Infinite : bool -> number
| NaN : number.

Record pyfloat : Type := mk_float {
  float_repr : string;
  float_value : number
}.

Local Unset Elimination Schemes.

Inductive json : Type :=
| JNull : json
| JBool : bool -> json
| JInt : Z -> json
| JFloat : pyfloat -> json
| JStr : string -> json
| JList : list json -> json
| JDict : list (string * json) -> json.

Local Set Elimination Schemes.

(** ** Outcome of a handler

    [NotLoaded] is the [HTTPException(500, "Cards data not loaded")],
    [NotFound] the [HTTPException(404, "Card not found")].  [Unhandled]
    stands for any Python exception the handler does not catch
    ([AttributeError], [TypeError], [KeyError]). *)

Inductive error : Type :=
| NotLoaded : error
| NotFound : error
| Unhandled : error.

Inductive result (A : Type) : Type :=
| Ok : A -> result A
| Err : error -> result A.

Arguments Ok {A} _.
Arguments Err {A} _.

Definition bind {A B : Type} (m : result A) (k : A -> result B) : result B :=
  match m with
  | Ok a => k a
  | Err e => Err e
  end.

Notation "x <- m ;; k" := (bind m (fun x => k))
  (at level 61, m at next level, right associativity).

(** A [for] loop whose body may raise: the accumulator is threaded from
    left to right and the first exception ends the loop. *)
Fixpoint for_each {A B : Type} (body : B -> A -> result B)
         (items : list A) (acc : B) : result B :=
  match items with
  | [] => Ok acc
  | x :: rest => acc' <- body acc x ;; for_each body rest acc'
  end.

(** ** Strings *)

Definition is_upper (c : ascii) : bool :=
  (65 <=? nat_of_ascii c)%nat && (nat_of_ascii c <=? 90)%nat.

Definition lower_char (c : ascii) : ascii :=
  if is_upper c then ascii_of_nat (nat_of_ascii c + 32) else c.

(** [str.lower()] on ASCII text, where it folds the letters [A] to [Z] and
    nothing else.  It serves to run the handlers on the sample documents,
    which are ASCII. *)
Fixpoint ascii_lower (s : string) : string :=
  match s with
  | EmptyString => EmptyString
  | String c t => String (lower_char c) (ascii_lower t)
  end.

(** [needle in hay] on two [str]s. *)
Fixpoint contains (needle hay : string) : bool :=
  String.prefix needle hay ||
  match hay with
  | EmptyString => false
  | String _ t => contains needle t
  end.

Section Handlers.

(** [str.lower()].  Python folds case with the Unicode tables and with
    rules on whole strings (a final sigma, a dotted capital I), which are
    not reproduced here.  The handlers are modelled with an arbitrary
    function in its place, so that what is proved of them holds with
    [str.lower] itself, on any text. *)
Variable lower : string -> string.

(** ** Python built-ins used by the handlers *)

(** Truth value of an object, as [not x] tests it. *)
Definition truthy (v : json) : bool :=
  match v with
  | JNull => false
  | JBool b => b
  | JInt z => negb (z =? 0)
  | JFloat f =>
      match float_value f with
      | Finite q => negb (Qeq_bool q (inject_Z 0))
      | _ => true
      end
  | JStr s => negb (String.eqb s "")
  | JList l => match l with [] => false | _ => true end
  | JDict d => match d with [] => false | _ => true end
  end.

Fixpoint dict_get (k : string) (d : list (string * json)) : option json :=
  match d with
  | [] => None
  | (k', v) :: rest => if String.eqb k' k then Some v else dict_get k rest
  end.

(** [list(d.values())] *)
Definition dict_values (d : list (string * json)) : list json :=
  map snd d.

(** [d.get(k, default)] on a [dict]. *)
Definition dict_get_default (k : string) (default : json)
           (d : list (string * json)) : json :=
  match dict_get k d with
  | Some v => v
  | None => default
  end.

(** [card.get(k, default)]: only a [dict] has a [get] method. *)
Definition card_get (card : json) (k : string) (default : json) : result json :=
  match card with
  | JDict d => Ok (dict_get_default k default d)
  | _ => Err Unhandled
  end.

(** [v.lower()]: only a [str] has a [lower] method. *)
Definition str_lower (v : json) : result string :=
  match v with
  | JStr s => Ok (lower s)
  | _ => Err Unhandled
  end.

(** [for x in v]: a list yields its elements, a [dict] its keys, a [str]
    its characters; nothing else is iterable. *)
Definition py_iter (v : json) : result (list json) :=
  match v with
  | JList l => Ok l
  | JDict d => Ok (map (fun kv => JStr (fst kv)) d)
  | JStr s => Ok (map (fun c => JStr (String c EmptyString)) (list_ascii_of_string s))
  | _ => Err Unhandled
  end.

(** [len(v)] *)
Definition py_len (v : json) : result Z :=
  match v with
  | JList l => Ok (Z.of_nat (List.length l))
  | JDict d => Ok (Z.of_nat (List.length d))
  | JStr s => Ok (Z.of_nat (String.length s))
  | _ => Err Unhandled
  end.

(** Position a slice bound denotes in a sequence of length [len]: a
    negative bound counts from the end, and the result is clamped to
    [0 .. len]. *)
Definition clamp_index (len : nat) (i : Z) : nat :=
  if i <? 0 then Z.to_nat (Z.max (Z.of_nat len + i) 0)
  else Nat.min (Z.to_nat i) len.

(** [v[start:]]; [start] may be [None]. *)
Definition slice_from (v : json) (start : option Z) : result json :=
  match v with
  | JList l =>
      match start with
      | None => Ok (JList l)
      | Some i => Ok (JList (skipn (clamp_index (List.length l) i) l))
      end
  | JStr s =>
      match start with
      | None => Ok (JStr s)
      | Some i =>
          let n := clamp_index (String.length s) i in
          Ok (JStr (String.substring n (String.length s - n) s))
      end
  | _ => Err Unhandled
  end.

(** [v[:stop]] *)
Definition slice_to (v : json) (stop : Z) : result json :=
  match v with
  | JList l => Ok (JList (firstn (clamp_index (List.length l) stop) l))
  | JStr s => Ok (JStr (String.substring 0 (clamp_index (String.length s) stop) s))
  | _ => Err Unhandled
  end.

(** *** [str] and [repr]

    [repr] of a [str] picks the quote (a double quote only when the text
    has a single quote and no double quote), escapes the backslash, the
    chosen quote, tab, newline and carriage return, and writes the other
    control characters as [\xhh]. *)

Definition hex_digit (n : nat) : ascii :=
  if (n <? 10)%nat then ascii_of_nat (48 + n) else ascii_of_nat (87 + n).

Definition string_has (c : ascii) (s : string) : bool :=
  existsb (Ascii.eqb c) (list_ascii_of_string s).

Definition single_quote : ascii := ascii_of_nat 39.
Definition double_quote : ascii := ascii_of_nat 34.

Definition repr_quote (s : string) : ascii :=
  if string_has single_quote s && negb (string_has double_quote s)
  then double_quote else single_quote.

Definition repr_char (quote c : ascii) : string :=
  let n := nat_of_ascii c in
  if Ascii.eqb c quote || Ascii.eqb c "\" then String "\" (String c EmptyString)
  else if (n =? 9)%nat then "\t"
  else if (n =? 10)%nat then "\n"
  else if (n =? 13)%nat then "\r"
  else if (n <? 32)%nat || (n =? 127)%nat then
    String "\" (String "x" (String (hex_digit (n / 16))
                              (String (hex_digit (n mod 16)) EmptyString)))
  else String c EmptyString.

Definition repr_str (s : string) : string :=
  let q := repr_quote s in
  String q (String.concat "" (map (repr_char q) (list_ascii_of_string s))
            ++ String q EmptyString).

(** [str(n)] of an [int] *)
Definition str_int (z : Z) : string :=
  NilZero.string_of_int (Z.to_int z).

Fixpoint py_repr (v : json) : string :=
  match v with
  | JNull => "None"
  | JBool true => "True"
  | JBool false => "False"
  | JInt z => str_int z
  | JFloat f => float_repr f
  | JStr s => repr_str s
  | JList l => "[" ++ String.concat ", " (map py_repr l) ++ "]"
  | JDict d =>
      "{" ++ String.concat ", "
               (map (fun kv => repr_str (fst kv) ++ ": " ++ py_repr (snd kv)) d)
          ++ "}"
  end.

(** [str(v)]: a [str] is its own text, anything else prints as its [repr]. *)
Definition py_str (v : json) : string :=
  match v with
  | JStr s => s
  | _ => py_repr v
  end.

(** ** Loading

    What [open] and [json.load] find at [data/cards.json] is given from
    outside: a parsed document, no file, or a file that is not JSON. *)

Inductive cards_file : Type :=
| Parsed : json -> cards_file
| Missing : cards_file
| Malformed : cards_file.

(** The two [HTTPException]s [load_cards_data] raises, with their detail. *)
Inductive load_error : Type :=
| FileNotFound : load_error
| InvalidJson : load_error.

Definition load_cards_data (file : cards_file) : json + load_error :=
  match file with
  | Parsed doc => inl doc
  | Missing => inr FileNotFound
  | Malformed => inr InvalidJson
  end.

(** [cards_data = None] at module level. *)
Definition initial_cards_data : json := JNull.

(** [startup_event]: the global after the event; when the load raises the
    assignment does not take place. *)
Definition startup_event (file : cards_file) (cards_data : json) : json :=
  match load_cards_data file with
  | inl doc => doc
  | inr _ => cards_data
  end.

(** ** The handlers *)

(** The record sequence [search_cards_by_name], the three filters and
    [get_stats] select, by the same expression:
    [cards_data if isinstance(cards_data, list) else
     cards_data.get("cards", list(cards_data.values()) if
     isinstance(cards_data, dict) else [])].
    A value that is neither a list nor a [dict] has no [get]. *)
Definition select_cards (doc : json) : result json :=
  match doc with
  | JList _ => Ok doc
  | JDict d => Ok (dict_get_default "cards" (JList (dict_values d)) d)
  | _ => Err Unhandled
  end.

(** The record sequence [get_all_cards] selects, by its
    [if isinstance(cards_data, list) / elif isinstance(cards_data, dict) /
    else] chain. *)
Definition listed_cards (doc : json) : json :=
  match doc with
  | JList _ => doc
  | JDict d => dict_get_default "cards" (JList (dict_values d)) d
  | _ => JList []
  end.

(** [cards = cards[offset:]], then [cards = cards[:limit]] under
    [if limit:], which a limit of [None] or [0] does not pass. *)
Definition paginate (cards : json) (limit offset : option Z) : result json :=
  cards <- slice_from cards offset ;;
  match limit with
  | Some n => if negb (n =? 0) then slice_to cards n else Ok cards
  | None => Ok cards
  end.

(** [GET /cards] *)
Definition get_all_cards (cards_data : json)
           (limit offset : option Z) : result json :=
  if negb (truthy cards_data) then Err NotLoaded
  else paginate (listed_cards cards_data) limit offset.

(** The f-string ["/{set_id}/{card_id}"] *)
Definition composite_key (set_id card_id : string) : string :=
  "/" ++ set_id ++ "/" ++ card_id.

(** The loop [for card in cards: if str(card.get("id")) == key: return card];
    [None] when the loop ends without returning. *)
Fixpoint scan_ids (key : string) (cards : list json) : result (option json) :=
  match cards with
  | [] => Ok None
  | card :: rest =>
      id <- card_get card "id" JNull ;;
      if String.eqb (py_str id) key then Ok (Some card) else scan_ids key rest
  end.

Definition found_or_404 (hit : option json) : result json :=
  match hit with
  | Some card => Ok card
  | None => Err NotFound
  end.

(** [GET /cards/{set_id}/{card_id}] *)
Definition get_card_by_id (cards_data : json)
           (set_id card_id : string) : result json :=
  let key := composite_key set_id card_id in
  if negb (truthy cards_data) then Err NotLoaded
  else
    match cards_data with
    | JList l => hit <- scan_ids key l ;; found_or_404 hit
    | JDict d =>
        match dict_get key d with
        | Some v => Ok v
        | None =>
            cards <- py_iter (dict_get_default "cards" (JList []) d) ;;
            hit <- scan_ids key cards ;;
            found_or_404 hit
        end
    | _ => Err NotFound
    end.

(** The three filters are the same function up to the field they read;
    the body of their loop is
    [if card.get(field, "").lower() == value.lower(): matching_cards.append(card)] *)
Definition filter_step (field value : string)
           (matching_cards : list json) (card : json) : result (list json) :=
  v <- card_get card field (JStr "") ;;
  lv <- str_lower v ;;
  Ok (if String.eqb lv (lower value) then (matching_cards ++ [card])%list
      else matching_cards).

Definition filter_in (field : string) (cards : json) (value : string)
  : result (list json) :=
  items <- py_iter cards ;;
  for_each (filter_step field value) items [].

Definition filter_cards (field : string) (cards_data : json)
           (value : string) : result (list json) :=
  if negb (truthy cards_data) then Err NotLoaded
  else cards <- select_cards cards_data ;; filter_in field cards value.

(** [GET /cards/search/name/{name}] *)
Definition search_step (name : string)
           (matching_cards : list json) (card : json) : result (list json) :=
  card_name <- card_get card "name" (JStr "") ;;
  lname <- str_lower card_name ;;
  Ok (if contains (lower name) lname then (matching_cards ++ [card])%list
      else matching_cards).

Definition search_in (cards : json) (name : string) : result (list json) :=
  items <- py_iter cards ;;
  for_each (search_step name) items [].

Definition search_cards_by_name (cards_data : json)
           (name : string) : result (list json) :=
  if negb (truthy cards_data) then Err NotLoaded
  else cards <- select_cards cards_data ;; search_in cards name.

(** [GET /cards/filter/type/{card_type}] *)
Definition filter_cards_by_type := filter_cards "type".

(** [GET /cards/filter/rarity/{rarity}] *)
Definition filter_cards_by_rarity := filter_cards "rarity".

(** [GET /cards/filter/set/{set_name}] *)
Definition filter_cards_by_set := filter_cards "set".

(** *** Statistics

    [types], [rarities] and [sets] are Python [dict]s filled by the loop.
    Their keys are whatever the records hold, so a table is an association
    list in insertion order, looked up with the equality a [dict] uses on
    its keys: [None] is equal to itself, two [str]s when they are the same
    text, and [bool]s, [int]s and [float]s as numbers ([True == 1 == 1.0]),
    the one [NaN] object being found by identity.  Lists and [dict]s are
    not hashable and cannot be keys. *)

Definition table : Type := list (json * Z).

Definition number_eqb (a b : number) : bool :=
  match a, b with
  | Finite p, Finite q => Qeq_bool p q
  | Infinite s, Infinite t => Bool.eqb s t
  | NaN, NaN => true
  | _, _ => false
  end.

(** Two keys are equal as numbers; a key that is not a number is equal to
    none. *)
Definition num_eqb (x y : option number) : bool :=
  match x, y with
  | Some a, Some b => number_eqb a b
  | _, _ => false
  end.

Definition key_num (v : json) : option number :=
  match v with
  | JBool b => Some (Finite (inject_Z (if b then 1 else 0)))
  | JInt z => Some (Finite (inject_Z z))
  | JFloat f => Some (float_value f)
  | _ => None
  end.

Definition key_eqb (a b : json) : bool :=
  match a, b with
  | JNull, JNull => true
  | JStr s, JStr t => String.eqb s t
  | _, _ => num_eqb (key_num a) (key_num b)
  end.

Definition hashable (v : json) : bool :=
  match v with
  | JList _ | JDict _ => false
  | _ => true
  end.

(** [t.get(k, default)] *)
Fixpoint table_get (k : json) (default : Z) (t : table) : Z :=
  match t with
  | [] => default
  | (k', n) :: rest => if key_eqb k' k then n else table_get k default rest
  end.

(** [t[k] = n]: an existing entry keeps its place and its key. *)
Fixpoint table_set (k : json) (n : Z) (t : table) : table :=
  match t with
  | [] => [(k, n)]
  | (k', m) :: rest =>
      if key_eqb k' k then (k', n) :: rest else (k', m) :: table_set k n rest
  end.

(** [t[k] = t.get(k, 0) + 1] *)
Definition tally (t : table) (k : json) : result table :=
  if hashable k then Ok (table_set k (table_get k 0 t + 1) t)
  else Err Unhandled.

Record stats : Type := mk_stats {
  total_cards : Z;
  types : table;
  rarities : table;
  sets : table
}.

Definition stats_step (acc : table * table * table) (card : json)
  : result (table * table * table) :=
  let '(types, rarities, sets) := acc in
  card_type <- card_get card "type" (JStr "Unknown") ;;
  rarity <- card_get card "rarity" (JStr "Unknown") ;;
  card_set <- card_get card "set" (JStr "Unknown") ;;
  types <- tally types card_type ;;
  rarities <- tally rarities rarity ;;
  sets <- tally sets card_set ;;
  Ok (types, rarities, sets).

(** [total_cards = len(cards)], the three empty tables, the loop and the
    returned [dict]. *)
Definition stats_of (cards : json) : result stats :=
  total_cards <- py_len cards ;;
  items <- py_iter cards ;;
  acc <- for_each stats_step items ([], [], []) ;;
  let '(types, rarities, sets) := acc in
  Ok (mk_stats total_cards types rarities sets).

(** [GET /stats] *)
Definition get_stats (cards_data : json) : result stats :=
  if negb (truthy cards_data) then Err NotLoaded
  else cards <- select_cards cards_data ;; stats_of cards.

(** ** Vocabulary of the properties *)

(** The Dataset as section 3 of the specification words it: a top-level
    sequence as it is; for a top-level mapping the sequence bound to
    ["cards"] when there is one, otherwise the mapping's values. *)
Definition spec_dataset (doc : json) : option (list json) :=
  match doc with
  | JList l => Some l
  | JDict d =>
      match dict_get "cards" d with
      | Some (JList l) => Some l
      | _ => Some (dict_values d)
      end
  | _ => None
  end.

(** A card record is a key/value map. *)
Definition is_record (card : json) : bool :=
  match card with
  | JDict _ => true
  | _ => false
  end.

(** The field [k] of a record is absent or holds a string. *)
Definition text_field (k : string) (card : json) : bool :=
  match card with
  | JDict d =>
      match dict_get k d with
      | None | Some (JStr _) => true
      | Some _ => false
      end
  | _ => false
  end.

(** The text of field [k], the empty string when the field is absent. *)
Definition field_text (k : string) (card : json) : string :=
  match card with
  | JDict d =>
      match dict_get k d with
      | Some (JStr s) => s
      | _ => ""
      end
  | _ => ""
  end.

(** The [id] of a record converted to a string equals [key]. *)
Definition id_matches (key : string) (card : json) : bool :=
  match card with
  | JDict d => String.eqb (py_str (dict_get_default "id" JNull d)) key
  | _ => false
  end.

(** The label [get_stats] counts a record under for field [k]. *)
Definition label_of (k : string) (card : json) : json :=
  match card with
  | JDict d => dict_get_default k (JStr "Unknown") d
  | _ => JStr "Unknown"
  end.

(** A record whose three labels can be keys of a table. *)
Definition countable (card : json) : bool :=
  is_record card && hashable (label_of "type" card)
  && hashable (label_of "rarity" card) && hashable (label_of "set" card).

(** [sum(t.values())] *)
Definition table_sum (t : table) : Z :=
  fold_right (fun kv acc => snd kv + acc) 0 t.

(** Number of records counted under [label] for field [k]. *)
Definition count_label (k : string) (label : json) (cards : list json) : Z :=
  Z.of_nat (List.length (filter (fun card => key_eqb (label_of k card) label) cards)).

(** The page [list] returns from a Dataset: [offset] records skipped, then
    at most [limit] records kept when a limit is given. *)
Definition page (limit : option Z) (offset : Z) (cards : list json) : list json :=
  match limit with
  | Some n => firstn (Z.to_nat n) (skipn (Z.to_nat offset) cards)
  | None => skipn (Z.to_nat offset) cards
  end.

(** No successful startup load has published a document: the global has
    its initial value, or a startup whose load failed has run from it. *)
Definition unpublished (cards_data : json) : Prop :=
  cards_data = initial_cards_data \/
  exists file e,
    load_cards_data file = inr e /\
    cards_data = startup_event file initial_cards_data.

(** Two arguments give the same results in the search and in the three
    filters. *)
Definition same_results (cards_data : json) (a b : string) : Prop :=
  search_cards_by_name cards_data a = search_cards_by_name cards_data b /\
  filter_cards_by_type cards_data a = filter_cards_by_type cards_data b /\
  filter_cards_by_rarity cards_data a = filter_cards_by_rarity cards_data b /\
  filter_cards_by_set cards_data a = filter_cards_by_set cards_data b.

(** The table [after] is [before] with one more count per record of
    [cards], under the label of its field [k]. *)
Definition tallied (k : string) (cards : list json) (before after : table) : Prop :=
  table_sum after = table_sum before + Z.of_nat (List.length cards) /\
  forall label,
    table_get label 0 after = table_get label 0 before + count_label k label cards.

(** The handlers that go through all records run their slicing or their
    loop on the value [v] when [doc] is loaded. *)
Definition iterates_over (doc v : json) : Prop :=
  (forall limit offset,
     get_all_cards doc limit offset = paginate v limit offset) /\
  (forall name, search_cards_by_name doc name = search_in v name) /\
  (forall field value,
     filter_cards field doc value = filter_in field v value) /\
  get_stats doc = stats_of v.

(** ** Sample documents *)

Definition mk_card (id name type rarity set : string) : json :=
  JDict [("id", JStr id); ("name", JStr name); ("type", JStr type);
         ("rarity", JStr rarity); ("set", JStr set)].

Definition pikachu : json := mk_card "/A1/001" "Pikachu" "Electric" "Common" "A1".
Definition bulbasaur : json := mk_card "/A1/002" "Bulbasaur" "Grass" "Common" "A1".
Definition charizard : json := mk_card "/A1/036" "Charizard" "Fire" "Rare" "A1".
Definition charmander : json := mk_card "/A1/033" "charmander" "fire" "Common" "A1".
Definition blastoise : json := mk_card "/A1/056" "Blastoise" "Water" "Rare" "A1".

(** The scenario of section 8: a top-level sequence of two records. *)
Definition two_cards : json := JList [pikachu; bulbasaur].

Definition five_cards : json :=
  JList [pikachu; charizard; bulbasaur; charmander; blastoise].

(** A top-level mapping without a ["cards"] key. *)
Definition by_slot : json := JDict [("first", pikachu); ("second", bulbasaur)].

(** A top-level mapping with the records under ["cards"]. *)
Definition wrapped : json :=
  JDict [("version", JInt 1); ("cards", JList [pikachu; bulbasaur])].

(** A top-level mapping keyed by composite key. *)
Definition by_key : json :=
  JDict [("/A1/001", JDict [("name", JStr "Pikachu")]); ("/A1/002", bulbasaur)].

(** A top-level mapping whose ["cards"] key is bound to one record, not to
    a sequence. *)
Definition cards_is_record : json := JDict [("cards", pikachu)].

(** ** Further vocabulary *)

(** [GET /]: the handler returns the same [dict] whatever [cards_data] is. *)
Definition root : json :=
  JDict [("message", JStr "PTCGP API - TCG Pocket Simulator");
         ("version", JStr "1.0.0")].

(** The document is a list or a [dict], the two shapes the handlers tell
    apart with [isinstance]. *)
Definition is_container (doc : json) : bool :=
  match doc with
  | JList _ | JDict _ => true
  | _ => false
  end.

(** The text has no ["/"], as a segment of a request path. *)
Definition no_slash (s : string) : bool :=
  negb (string_has "/" s).

(** A successful startup load has published a document the guard lets
    through. *)
Definition serving (file : cards_file) : Prop :=
  exists doc, file = Parsed doc /\ truthy doc = true.

(** No two entries of a table have equal keys, as in a [dict]. *)
Fixpoint distinct_keys (t : table) : Prop :=
  match t with
  | [] => True
  | (k, _) :: rest =>
      (forall k' n, In (k', n) rest -> key_eqb k k' = false) /\
      distinct_keys rest
  end.

(** Every count of a table is at least 1. *)
Definition positive_counts (t : table) : Prop :=
  forall k n, In (k, n) t -> 1 <= n.

(** A table as a [dict] filled from at most [bound] records: no two equal
    keys, counts of at least 1, at most [bound] entries. *)
Definition dict_like (bound : nat) (t : table) : Prop :=
  distinct_keys t /\ positive_counts t /\ (List.length t <= bound)%nat.

(** Every element of [before] is a map whose [id] is not [key]: the
    lookup loop goes past all of them. *)
Definition all_before_match (key : string) (before : list json) : bool :=
  forallb (fun c => is_record c && negb (id_matches key c)) before.

(** ** Case folding and containment *)



(** ** Loops *)

Section ForEach.
Context {A : Type}.
Variable keep : A -> bool.
Variable well_formed : A -> bool.
Variable body : list A -> A -> result (list A).
Hypothesis body_appends :
  forall acc x, well_formed x = true ->
    body acc x = Ok (if keep x then (acc ++ [x])%list else acc).

(** A loop that appends the kept items is [filter]. *)
Lemma for_each_filter (items acc : list A) :
  forallb well_formed items = true ->
  for_each body items acc = Ok (acc ++ filter keep items)%list.
Proof.
  revert acc; induction items as [|x rest IH]; intros acc Hwf; simpl in *.
  - now rewrite app_nil_r.
  - apply andb_true_iff in Hwf as [Hx Hrest].
    rewrite (body_appends _ _ Hx); simpl.
    rewrite (IH _ Hrest). destruct (keep x); [|reflexivity].
    now rewrite <- app_assoc.
Qed.
End ForEach.

Lemma scan_ids_find (key : string) (cards : list json) :
  forallb is_record cards = true ->
  scan_ids key cards = Ok (find (id_matches key) cards).
Proof.
  induction cards as [|c rest IH]; simpl; [reflexivity|].
  intros H; apply andb_true_iff in H as [Hc Hrest].
  destruct c; try discriminate; simpl.
  destruct (String.eqb _ key); [reflexivity | now apply IH].
Qed.

Lemma search_step_keeps (name : string) (acc : list json) (c : json) :
  text_field "name" c = true ->
  search_step name acc c =
  Ok (if contains (lower name) (lower (field_text "name" c))
      then (acc ++ [c])%list else acc).
Proof.
  unfold search_step, text_field, field_text, card_get, dict_get_default.
  destruct c; try discriminate.
  destruct (dict_get "name" l) as [[]|]; try discriminate; intros _; reflexivity.
Qed.

Lemma filter_step_keeps (field value : string) (acc : list json) (c : json) :
  text_field field c = true ->
  filter_step field value acc c =
  Ok (if String.eqb (lower (field_text field c)) (lower value)
      then (acc ++ [c])%list else acc).
Proof.
  unfold filter_step, text_field, field_text, card_get, dict_get_default.
  destruct c; try discriminate.
  destruct (dict_get field l) as [[]|]; try discriminate; intros _; reflexivity.
Qed.

(** ** The not-loaded guard *)

(** Every handler starts with [if not cards_data: raise ...], which turns
    down any value Python counts as false. *)
Lemma falsy_document_not_loaded (doc : json) :
  truthy doc = false ->
  (forall limit offset, get_all_cards doc limit offset = Err NotLoaded) /\
  (forall set_id card_id, get_card_by_id doc set_id card_id = Err NotLoaded) /\
  (forall name, search_cards_by_name doc name = Err NotLoaded) /\
  (forall field value, filter_cards field doc value = Err NotLoaded) /\
  get_stats doc = Err NotLoaded.
Proof.
  intros H.
  unfold get_all_cards, get_card_by_id, search_cards_by_name, filter_cards, get_stats.
  rewrite H; simpl. repeat split; reflexivity.
Qed.

(** A startup whose load fails leaves the global as it was, and one whose
    load succeeds stores the parsed document. *)
Lemma startup_event_publishes (doc cards_data : json) :
  startup_event (Parsed doc) cards_data = doc /\
  startup_event Missing cards_data = cards_data /\
  startup_event Malformed cards_data = cards_data.
Proof. repeat split. Qed.

(** C8: when no successful startup load has published a document, the
    global [cards_data] still being [None] before the startup or after a
    startup whose load failed, each of the seven query operations fails with
    [NotLoaded], whatever its arguments. *)
Theorem not_loaded_before_startup :
  forall (cards_data : json) (limit offset : option Z)
         (set_id card_id name value : string),
    unpublished cards_data ->
    get_all_cards cards_data limit offset = Err NotLoaded /\
    get_card_by_id cards_data set_id card_id = Err NotLoaded /\
    search_cards_by_name cards_data name = Err NotLoaded /\
    filter_cards_by_type cards_data value = Err NotLoaded /\
    filter_cards_by_rarity cards_data value = Err NotLoaded /\
    filter_cards_by_set cards_data value = Err NotLoaded /\
    get_stats cards_data = Err NotLoaded.
Proof.
  intros cards_data limit offset set_id card_id name value Hun.
  assert (Hnone : cards_data = JNull).
  { destruct Hun as [-> | (file & e & Hload & ->)]; [reflexivity|].
    unfold startup_event. now rewrite Hload. }
  subst cards_data. repeat split; reflexivity.
Qed.

(** C10: when the loaded document is an empty top-level sequence or an
    empty mapping, each of the seven query operations fails with
    [NotLoaded], exactly as it does before any load: none returns an empty
    sequence or zero counts. *)
Theorem empty_document_not_loaded :
  forall (doc : json) (limit offset : option Z)
         (set_id card_id name value : string),
    doc = JList [] \/ doc = JDict [] ->
    get_all_cards doc limit offset = Err NotLoaded /\
    get_card_by_id doc set_id card_id = Err NotLoaded /\
    search_cards_by_name doc name = Err NotLoaded /\
    filter_cards_by_type doc value = Err NotLoaded /\
    filter_cards_by_rarity doc value = Err NotLoaded /\
    filter_cards_by_set doc value = Err NotLoaded /\
    get_stats doc = Err NotLoaded.
Proof.
  intros doc limit offset set_id card_id name value Hdoc.
  assert (Hfalsy : truthy doc = false) by (destruct Hdoc; subst; reflexivity).
  destruct (falsy_document_not_loaded doc Hfalsy) as (Hl & Hk & Hs & Hf & Ht).
  unfold filter_cards_by_type, filter_cards_by_rarity, filter_cards_by_set.
  repeat split; auto.
Qed.

(** ** Lookup by composite key *)

Lemma truthy_dict (d : list (string * json)) : d <> [] -> truthy (JDict d) = true.
Proof. destruct d; [congruence | reflexivity]. Qed.

Lemma truthy_list (l : list json) : l <> [] -> truthy (JList l) = true.
Proof. destruct l; [congruence | reflexivity]. Qed.

Lemma dict_get_nonempty (k : string) (d : list (string * json)) (v : json) :
  dict_get k d = Some v -> d <> [].
Proof. destruct d; [discriminate | congruence]. Qed.

(** What [get_card_by_id] does on a loaded mapping. *)
Lemma get_card_by_id_dict (d : list (string * json)) (set_id card_id : string) :
  d <> [] ->
  get_card_by_id (JDict d) set_id card_id =
  match dict_get (composite_key set_id card_id) d with
  | Some v => Ok v
  | None =>
      cards <- py_iter (dict_get_default "cards" (JList []) d) ;;
      hit <- scan_ids (composite_key set_id card_id) cards ;;
      found_or_404 hit
  end.
Proof.
  intros H. unfold get_card_by_id. now rewrite (truthy_dict d H).
Qed.

(** C9, amended: on a non-empty top-level mapping, [get_card_by_id]
    returns the value bound to the composite key when that string is a key
    of the mapping, whatever that value is; otherwise its result is the
    scan of the sequence bound to ["cards"], the empty sequence when the key
    is absent, so two mappings with the same ["cards"] binding give the same
    result whatever their other values are, and a mapping without a
    ["cards"] key gives [NotFound]. *)
Theorem mapping_lookup :
  forall (d : list (string * json)) (set_id card_id : string),
    d <> [] ->
    (forall v, dict_get (composite_key set_id card_id) d = Some v ->
       get_card_by_id (JDict d) set_id card_id = Ok v) /\
    (dict_get (composite_key set_id card_id) d = None ->
       (forall cards,
          dict_get_default "cards" (JList []) d = JList cards ->
          forallb is_record cards = true ->
          get_card_by_id (JDict d) set_id card_id =
          match find (id_matches (composite_key set_id card_id)) cards with
          | Some c => Ok c
          | None => Err NotFound
          end) /\
       (forall d', d' <> [] ->
          dict_get (composite_key set_id card_id) d' = None ->
          dict_get "cards" d' = dict_get "cards" d ->
          get_card_by_id (JDict d') set_id card_id =
          get_card_by_id (JDict d) set_id card_id) /\
       (dict_get "cards" d = None ->
          get_card_by_id (JDict d) set_id card_id = Err NotFound)).
Proof.
  intros d set_id card_id Hd. split.
  - intros v Hv. now rewrite (get_card_by_id_dict d _ _ Hd), Hv.
  - intros Hkey. rewrite (get_card_by_id_dict d _ _ Hd), Hkey.
    split; [|split].
    + intros cards Hcards Hrec. rewrite Hcards; simpl.
      rewrite (scan_ids_find _ _ Hrec); simpl.
      now destruct (find _ cards).
    + intros d' Hd' Hkey' Hsame.
      rewrite (get_card_by_id_dict d' _ _ Hd'), Hkey'.
      unfold dict_get_default. now rewrite Hsame.
    + intros Hnone. unfold dict_get_default. now rewrite Hnone.
Qed.

(** C1, amended: for a non-empty document that is a top-level sequence of
    records, or a top-level mapping whose ["cards"] key is bound to a
    sequence of records and which does not have the composite key among its
    own keys, [get_card_by_id] returns the first record of that sequence
    whose [id], converted to a string, equals ["/{set_id}/{card_id}"], and
    fails with [NotFound] when no record has that id. *)
Theorem get_card_by_id_first_match :
  forall (doc : json) (cards : list json) (set_id card_id : string),
    truthy doc = true ->
    (doc = JList cards \/
     exists d, doc = JDict d /\ dict_get "cards" d = Some (JList cards) /\
               dict_get (composite_key set_id card_id) d = None) ->
    forallb is_record cards = true ->
    get_card_by_id doc set_id card_id =
    match find (id_matches (composite_key set_id card_id)) cards with
    | Some c => Ok c
    | None => Err NotFound
    end.
Proof.
  intros doc cards set_id card_id Hload Hshape Hrec.
  destruct Hshape as [-> | (d & -> & Hcards & Hkey)].
  - unfold get_card_by_id. rewrite Hload; simpl.
    rewrite (scan_ids_find _ _ Hrec); simpl. now destruct (find _ cards).
  - rewrite get_card_by_id_dict by (eapply dict_get_nonempty; eassumption).
    rewrite Hkey. unfold dict_get_default. rewrite Hcards; simpl.
    rewrite (scan_ids_find _ _ Hrec); simpl. now destruct (find _ cards).
Qed.

(** ** Case of the argument *)

Lemma search_step_lower (a b : string) :
  lower a = lower b -> search_step a = search_step b.
Proof. intros H. unfold search_step. now rewrite H. Qed.

Lemma filter_step_lower (field a b : string) :
  lower a = lower b -> filter_step field a = filter_step field b.
Proof. intros H. unfold filter_step. now rewrite H. Qed.

Lemma same_lower_same_results (cards_data : json) (a b : string) :
  lower a = lower b -> same_results cards_data a b.
Proof.
  intros H. unfold same_results, filter_cards_by_type, filter_cards_by_rarity,
    filter_cards_by_set, search_cards_by_name, filter_cards, search_in, filter_in.
  rewrite (search_step_lower a b H).
  now rewrite !(filter_step_lower _ a b H).
Qed.

(** C2, amended: for [search_cards_by_name] and the three filters, and for
    every state of [cards_data], two arguments with the same lower-cased
    form, the one [str.lower] gives, give the same result.
    [get_card_by_id] compares the composite key as it is. *)
Theorem case_insensitive_argument :
  forall (cards_data : json) (a b : string),
    lower a = lower b -> same_results cards_data a b.
Proof.
  intros cards_data a b H. now apply same_lower_same_results.
Qed.

(** ** The record sequence of a document *)

Lemma select_is_listed (doc v : json) :
  select_cards doc = Ok v -> listed_cards doc = v.
Proof. destruct doc; simpl; congruence. Qed.

Lemma loaded_iterates_over (doc v : json) :
  truthy doc = true -> select_cards doc = Ok v -> iterates_over doc v.
Proof.
  intros Hload Hsel. pose proof (select_is_listed _ _ Hsel) as Hlist.
  unfold iterates_over, get_all_cards, search_cards_by_name, filter_cards,
    get_stats.
  rewrite Hload, Hsel, Hlist; simpl. repeat split; reflexivity.
Qed.

(** C3, amended: the value the listing, the search, the three filters and
    the statistics take as the record sequence is the document itself when
    it is a top-level sequence; the value bound to ["cards"] when the
    document is a top-level mapping with that key, whether that value is a
    sequence or not; the mapping's values, in the mapping's order, when the
    mapping has no ["cards"] key.  On a document that passes the guard each
    of these handlers is its slicing or its loop run on that value. *)
Theorem record_sequence :
  (forall l,
     listed_cards (JList l) = JList l /\ select_cards (JList l) = Ok (JList l)) /\
  (forall d v, dict_get "cards" d = Some v ->
     listed_cards (JDict d) = v /\ select_cards (JDict d) = Ok v) /\
  (forall d, dict_get "cards" d = None ->
     listed_cards (JDict d) = JList (dict_values d) /\
     select_cards (JDict d) = Ok (JList (dict_values d))) /\
  (forall doc v, truthy doc = true -> select_cards doc = Ok v ->
     iterates_over doc v).
Proof.
  split; [|split; [|split]].
  - intros l. split; reflexivity.
  - intros d v H. simpl. unfold dict_get_default. rewrite H. split; reflexivity.
  - intros d H. simpl. unfold dict_get_default. rewrite H. split; reflexivity.
  - exact loaded_iterates_over.
Qed.

(** ** Listing *)

Lemma skipn_clamp (l : list json) (i : Z) :
  0 <= i -> skipn (clamp_index (List.length l) i) l = skipn (Z.to_nat i) l.
Proof.
  intros Hi. unfold clamp_index.
  destruct (Z.ltb_spec i 0) as [Hneg|_]; [lia|].
  destruct (Nat.le_gt_cases (Z.to_nat i) (List.length l)) as [Hle|Hgt].
  - now rewrite Nat.min_l.
  - rewrite Nat.min_r by lia. rewrite skipn_all.
    symmetry. apply skipn_all2. lia.
Qed.

Lemma firstn_clamp (l : list json) (i : Z) :
  0 <= i -> firstn (clamp_index (List.length l) i) l = firstn (Z.to_nat i) l.
Proof.
  intros Hi. unfold clamp_index.
  destruct (Z.ltb_spec i 0) as [Hneg|_]; [lia|].
  destruct (Nat.le_gt_cases (Z.to_nat i) (List.length l)) as [Hle|Hgt].
  - now rewrite Nat.min_l.
  - rewrite Nat.min_r by lia. rewrite firstn_all.
    symmetry. apply firstn_all2. lia.
Qed.

Lemma paginate_page (cards : list json) (limit : option Z) (offset : Z) :
  0 <= offset -> (forall n, limit = Some n -> 1 <= n) ->
  paginate (JList cards) limit (Some offset) = Ok (JList (page limit offset cards)).
Proof.
  intros Hoff Hlim. unfold paginate, page; simpl.
  rewrite (skipn_clamp cards offset Hoff).
  destruct limit as [n|]; [|reflexivity].
  pose proof (Hlim n eq_refl) as Hn.
  destruct (Z.eqb_spec n 0) as [Hz|_]; [lia|]; simpl.
  now rewrite firstn_clamp by lia.
Qed.

(** C4, amended: for a loaded document that is not empty, with record
    sequence [cards], every offset >= 0 and every limit >= 1 or absent, the
    listing returns [cards] in order without its first [offset] records and,
    when a limit is given, cut to at most [limit] records; from an offset at
    or past the length the page is empty, and without limit from offset 0
    it is all of [cards]. *)
Theorem get_all_cards_page :
  forall (doc : json) (cards : list json) (limit : option Z) (offset : Z),
    truthy doc = true ->
    listed_cards doc = JList cards ->
    0 <= offset ->
    (forall n, limit = Some n -> 1 <= n) ->
    get_all_cards doc limit (Some offset) = Ok (JList (page limit offset cards)) /\
    (Z.of_nat (List.length cards) <= offset -> page limit offset cards = []) /\
    (forall n, limit = Some n -> Z.of_nat (List.length (page limit offset cards)) <= n) /\
    (limit = None -> offset = 0 -> page limit offset cards = cards).
Proof.
  intros doc cards limit offset Hload Hcards Hoff Hlim.
  split; [|split; [|split]].
  - unfold get_all_cards. rewrite Hload, Hcards; simpl.
    now apply paginate_page.
  - intros Hpast. unfold page.
    rewrite (skipn_all2 cards) by lia.
    destruct limit; [apply firstn_nil | reflexivity].
  - intros n ->. unfold page. rewrite length_firstn.
    pose proof (Hlim n eq_refl). lia.
  - intros -> ->. reflexivity.
Qed.

(** ** Search and filters *)

Lemma search_in_filter (cards : list json) (name : string) :
  forallb (text_field "name") cards = true ->
  search_in (JList cards) name =
  Ok (filter (fun c => contains (lower name) (lower (field_text "name" c))) cards).
Proof.
  intros H. unfold search_in; simpl.
  apply (for_each_filter _ (text_field "name") (search_step name)
           (search_step_keeps name) cards [] H).
Qed.

Lemma filter_in_filter (field : string) (cards : list json) (value : string) :
  forallb (text_field field) cards = true ->
  filter_in field (JList cards) value =
  Ok (filter (fun c => String.eqb (lower (field_text field c)) (lower value)) cards).
Proof.
  intros H. unfold filter_in; simpl.
  apply (for_each_filter _ (text_field field) (filter_step field value)
           (filter_step_keeps field value) cards [] H).
Qed.

Lemma filter_cards_filter (field : string) (doc : json) (cards : list json)
      (value : string) :
  truthy doc = true ->
  select_cards doc = Ok (JList cards) ->
  forallb (text_field field) cards = true ->
  filter_cards field doc value =
  Ok (filter (fun c => String.eqb (lower (field_text field c)) (lower value)) cards).
Proof.
  intros Hload Hsel Hrec. unfold filter_cards. rewrite Hload, Hsel; simpl.
  now apply filter_in_filter.
Qed.



(** ** Statistics *)

Lemma number_eqb_sym (a b : number) : number_eqb a b = number_eqb b a.
Proof.
  destruct a as [p|s|], b as [q|t|]; simpl; try reflexivity.
  - apply Qeq_bool_comm.
  - now destruct s, t.
Qed.

Lemma number_eqb_congr (a b c : number) :
  number_eqb a b = true -> number_eqb a c = number_eqb b c.
Proof.
  destruct a as [p|s|], b as [q|t|]; simpl; try discriminate; intros H.
  - apply Qeq_bool_eq in H. destruct c as [r| |]; simpl; try reflexivity.
    now rewrite H.
  - apply Bool.eqb_prop in H. now subst.
  - reflexivity.
Qed.

Lemma num_eqb_sym (x y : option number) : num_eqb x y = num_eqb y x.
Proof.
  destruct x, y; simpl; try reflexivity. apply number_eqb_sym.
Qed.

Lemma num_eqb_congr (x y z : option number) :
  num_eqb x y = true -> num_eqb x z = num_eqb y z.
Proof.
  destruct x, y; simpl; try discriminate; intros H.
  destruct z; simpl; [|reflexivity]. now apply number_eqb_congr.
Qed.

Lemma key_eqb_sym (a b : json) : key_eqb a b = key_eqb b a.
Proof.
  destruct a, b; try reflexivity; try apply num_eqb_sym.
  apply String.eqb_sym.
Qed.

Lemma key_eqb_congr (a b c : json) :
  key_eqb a b = true -> key_eqb a c = key_eqb b c.
Proof.
  destruct a, b; try discriminate; intros H;
    try (apply String.eqb_eq in H; subst; reflexivity);
    destruct c; try reflexivity; try (now apply num_eqb_congr).
Qed.

Lemma table_set_sum (k : json) (t : table) :
  table_sum (table_set k (table_get k 0 t + 1) t) = table_sum t + 1.
Proof.
  induction t as [|[k' m] rest IH]; simpl; [reflexivity|].
  destruct (key_eqb k' k); simpl; lia.
Qed.

Lemma table_set_get (k label : json) (t : table) :
  table_get label 0 (table_set k (table_get k 0 t + 1) t) =
  table_get label 0 t + (if key_eqb k label then 1 else 0).
Proof.
  induction t as [|[k' m] rest IH]; simpl.
  - destruct (key_eqb k label); reflexivity.
  - destruct (key_eqb k' k) eqn:Hk; simpl.
    + rewrite <- (key_eqb_congr k' k label Hk).
      destruct (key_eqb k' label); lia.
    + destruct (key_eqb k' label) eqn:Hl; [|exact IH].
      rewrite key_eqb_sym in Hl.
      rewrite (key_eqb_sym k label), (key_eqb_congr label k' k Hl), Hk. lia.
Qed.

Lemma count_label_cons (k : string) (label c : json) (rest : list json) :
  count_label k label (c :: rest) =
  (if key_eqb (label_of k c) label then 1 else 0) + count_label k label rest.
Proof.
  unfold count_label; cbn [filter].
  destruct (key_eqb (label_of k c) label); cbn [List.length]; lia.
Qed.

Lemma tallied_step (k : string) (c : json) (rest : list json) (t t' : table) :
  tallied k rest (table_set (label_of k c) (table_get (label_of k c) 0 t + 1) t) t' ->
  tallied k (c :: rest) t t'.
Proof.
  intros [Hsum Hget]. split.
  - rewrite Hsum, table_set_sum. simpl List.length. lia.
  - intros label. rewrite Hget, table_set_get, count_label_cons. lia.
Qed.

Lemma tallied_nil (k : string) (t : table) : tallied k [] t t.
Proof.
  split; [simpl; lia | intros label; unfold count_label; simpl; lia].
Qed.

Lemma stats_step_countable (types rarities sets : table) (c : json) :
  countable c = true ->
  stats_step (types, rarities, sets) c =
  Ok (table_set (label_of "type" c) (table_get (label_of "type" c) 0 types + 1) types,
      table_set (label_of "rarity" c) (table_get (label_of "rarity" c) 0 rarities + 1) rarities,
      table_set (label_of "set" c) (table_get (label_of "set" c) 0 sets + 1) sets).
Proof.
  unfold countable. intros H.
  apply andb_true_iff in H as [H Hs]. apply andb_true_iff in H as [H Hr].
  apply andb_true_iff in H as [Hrec Ht].
  destruct c; try discriminate.
  unfold stats_step, card_get, tally; simpl in *.
  now rewrite Ht, Hr, Hs.
Qed.

Lemma stats_loop (cards : list json) :
  forall types rarities sets,
    forallb countable cards = true ->
    exists types' rarities' sets',
      for_each stats_step cards (types, rarities, sets) = Ok (types', rarities', sets') /\
      tallied "type" cards types types' /\
      tallied "rarity" cards rarities rarities' /\
      tallied "set" cards sets sets'.
Proof.
  induction cards as [|c rest IH]; intros types rarities sets Hrec.
  - exists types, rarities, sets.
    split; [reflexivity | split; [|split]]; apply tallied_nil.
  - simpl in Hrec. apply andb_true_iff in Hrec as [Hc Hrest].
    cbn [for_each]. rewrite (stats_step_countable _ _ _ _ Hc). cbn [bind].
    match goal with
    | |- context [for_each stats_step rest (?t1, ?r1, ?s1)] =>
        destruct (IH t1 r1 s1 Hrest) as (t' & r' & s' & Hrun & Ht & Hr & Hs)
    end.
    exists t', r', s'. split; [exact Hrun|].
    split; [|split]; now apply tallied_step.
Qed.

(** C7, amended: for a loaded document that is not empty, with a record
    sequence [cards] of N records whose [type], [rarity] and [set] can be
    keys of a table, the statistics succeed; [total_cards] is N; in each of
    the three tables the count of a label is the number of records whose
    field, ["Unknown"] when the field is missing, is that very label, with
    no case folding; and the counts of each table add up to N. *)
Theorem get_stats_counts :
  forall (doc : json) (cards : list json),
    truthy doc = true ->
    select_cards doc = Ok (JList cards) ->
    forallb countable cards = true ->
    exists st,
      get_stats doc = Ok st /\
      total_cards st = Z.of_nat (List.length cards) /\
      table_sum (types st) = total_cards st /\
      table_sum (rarities st) = total_cards st /\
      table_sum (sets st) = total_cards st /\
      (forall label,
         table_get label 0 (types st) = count_label "type" label cards /\
         table_get label 0 (rarities st) = count_label "rarity" label cards /\
         table_get label 0 (sets st) = count_label "set" label cards).
Proof.
  intros doc cards Hload Hsel Hrec.
  destruct (stats_loop cards [] [] [] Hrec)
    as (t & r & s & Hrun & [Hts Htg] & [Hrs Hrg] & [Hss Hsg]).
  exists (mk_stats (Z.of_nat (List.length cards)) t r s).
  unfold get_stats, stats_of. rewrite Hload, Hsel.
  cbn [negb bind py_len py_iter]. unfold table in *. rewrite Hrun. cbn [bind].
  simpl in Hts, Hrs, Hss.
  repeat split; try assumption.
  - rewrite Htg; reflexivity.
  - rewrite Hrg; reflexivity.
  - rewrite Hsg; reflexivity.
Qed.

(** ** Documents that are neither a list nor a mapping *)

Lemma paginate_nil (limit offset : option Z) :
  paginate (JList []) limit offset = Ok (JList []).
Proof.
  unfold paginate. destruct offset as [i|]; simpl.
  - rewrite skipn_nil. destruct limit as [n|]; [|reflexivity].
    destruct (negb (n =? 0)); [|reflexivity]. simpl. now rewrite firstn_nil.
  - destruct limit as [n|]; [|reflexivity].
    destruct (negb (n =? 0)); [|reflexivity]. simpl. now rewrite firstn_nil.
Qed.

(** On a loaded document that is neither a list nor a mapping (a number,
    a string, [true]) the handlers part ways: the listing answers with the
    empty list, the lookup with [NotFound], and the search, the filters and
    the statistics raise, since such a value has no [get]. *)
Theorem scalar_document :
  forall (doc : json) (limit offset : option Z)
         (set_id card_id name field value : string),
    truthy doc = true ->
    is_container doc = false ->
    get_all_cards doc limit offset = Ok (JList []) /\
    get_card_by_id doc set_id card_id = Err NotFound /\
    search_cards_by_name doc name = Err Unhandled /\
    filter_cards field doc value = Err Unhandled /\
    get_stats doc = Err Unhandled.
Proof.
  intros doc limit offset set_id card_id name field value Hload Hshape.
  unfold get_all_cards, get_card_by_id, search_cards_by_name, filter_cards,
    get_stats.
  rewrite Hload; cbn [negb].
  destruct doc; try discriminate; cbn [listed_cards select_cards bind];
    rewrite paginate_nil; repeat split; reflexivity.
Qed.

(** ** More on the listing *)

Lemma paginate_segment (cards : list json) (limit offset : option Z) :
  exists before shown after,
    paginate (JList cards) limit offset = Ok (JList shown) /\
    cards = (before ++ shown ++ after)%list.
Proof.
  assert (Hcut : forall (l : list json) (n : nat),
             l = (firstn n l ++ skipn n l)%list)
    by (intros; symmetry; apply firstn_skipn).
  unfold paginate.
  assert (Hfrom : exists before rest,
             slice_from (JList cards) offset = Ok (JList rest) /\
             cards = (before ++ rest)%list).
  { destruct offset as [i|]; simpl.
    - exists (firstn (clamp_index (List.length cards) i) cards),
             (skipn (clamp_index (List.length cards) i) cards).
      split; [reflexivity | apply Hcut].
    - exists [], cards. split; reflexivity. }
  destruct Hfrom as (before & rest & -> & Hcards). cbn [bind].
  destruct limit as [n|].
  - destruct (negb (n =? 0)).
    + exists before, (firstn (clamp_index (List.length rest) n) rest),
             (skipn (clamp_index (List.length rest) n) rest).
      split; [reflexivity|]. now rewrite <- Hcut.
    + exists before, rest, []. split; [reflexivity|]. now rewrite app_nil_r.
  - exists before, rest, []. split; [reflexivity|]. now rewrite app_nil_r.
Qed.

(** Whatever the limit and the offset, negative ones included, the
    listing of a loaded document whose record sequence is a list does not
    fail and returns a run of consecutive records of that list, in their
    order. *)
Theorem listing_is_a_segment :
  forall (doc : json) (cards : list json) (limit offset : option Z),
    truthy doc = true ->
    listed_cards doc = JList cards ->
    exists before shown after,
      get_all_cards doc limit offset = Ok (JList shown) /\
      cards = (before ++ shown ++ after)%list.
Proof.
  intros doc cards limit offset Hload Hcards.
  unfold get_all_cards. rewrite Hload, Hcards; cbn [negb].
  apply paginate_segment.
Qed.

Lemma page_length (cards : list json) (limit : option Z) (offset : Z) :
  0 <= offset -> (forall n, limit = Some n -> 1 <= n) ->
  Z.of_nat (List.length (page limit offset cards)) =
  match limit with
  | Some n => Z.min n (Z.max 0 (Z.of_nat (List.length cards) - offset))
  | None => Z.max 0 (Z.of_nat (List.length cards) - offset)
  end.
Proof.
  intros Hoff Hlim. unfold page. destruct limit as [n|].
  - pose proof (Hlim n eq_refl). rewrite length_firstn, length_skipn. lia.
  - rewrite length_skipn. lia.
Qed.

(** The number of records the listing returns is exactly what is left
    after the offset, capped by the limit: [min(limit, max(0, N - offset))],
    and [max(0, N - offset)] without limit. *)
Theorem listing_length :
  forall (doc : json) (cards : list json) (limit : option Z) (offset : Z),
    truthy doc = true ->
    listed_cards doc = JList cards ->
    0 <= offset ->
    (forall n, limit = Some n -> 1 <= n) ->
    exists shown,
      get_all_cards doc limit (Some offset) = Ok (JList shown) /\
      Z.of_nat (List.length shown) =
      match limit with
      | Some n => Z.min n (Z.max 0 (Z.of_nat (List.length cards) - offset))
      | None => Z.max 0 (Z.of_nat (List.length cards) - offset)
      end.
Proof.
  intros doc cards limit offset Hload Hcards Hoff Hlim.
  exists (page limit offset cards). split.
  - unfold get_all_cards. rewrite Hload, Hcards; cbn [negb].
    now apply paginate_page.
  - now apply page_length.
Qed.

(** Consecutive pages fit together: the page of [limit] records at
    [offset], followed by everything from [offset + limit] on, is everything
    from [offset] on; no record is lost or repeated between two pages. *)
Theorem pages_concatenate :
  forall (doc : json) (cards : list json) (limit offset : Z),
    truthy doc = true ->
    listed_cards doc = JList cards ->
    0 <= offset ->
    1 <= limit ->
    exists first_page rest,
      get_all_cards doc (Some limit) (Some offset) = Ok (JList first_page) /\
      get_all_cards doc None (Some (offset + limit)) = Ok (JList rest) /\
      get_all_cards doc None (Some offset) = Ok (JList (first_page ++ rest)%list).
Proof.
  intros doc cards limit offset Hload Hcards Hoff Hlim.
  exists (page (Some limit) offset cards), (page None (offset + limit) cards).
  unfold get_all_cards. rewrite Hload, Hcards; cbn [negb].
  rewrite !paginate_page; try lia; try (intros n H; inversion H; lia);
    try discriminate.
  repeat split. unfold page.
  rewrite Z2Nat.inj_add by lia.
  rewrite (Nat.add_comm (Z.to_nat offset)), <- skipn_skipn.
  now rewrite firstn_skipn.
Qed.

(** ** Malformed records *)

Section ForEachRaises.
Context {A B : Type}.
Variable well_formed : A -> bool.
Variable body : B -> A -> result B.
Hypothesis body_returns :
  forall acc x, well_formed x = true -> exists acc', body acc x = Ok acc'.
Hypothesis body_raises :
  forall acc x, well_formed x = false -> body acc x = Err Unhandled.

(** A loop with no early exit raises as soon as one item, wherever it
    stands, makes the body raise. *)
Lemma for_each_raises (items : list A) (acc : B) :
  forallb well_formed items = false ->
  for_each body items acc = Err Unhandled.
Proof.
  revert acc; induction items as [|x rest IH]; intros acc Hbad;
    [discriminate|].
  cbn [forallb] in Hbad. cbn [for_each].
  destruct (well_formed x) eqn:Hx.
  - destruct (body_returns acc x Hx) as [acc' ->]. cbn [bind].
    apply IH. exact Hbad.
  - now rewrite (body_raises acc x Hx).
Qed.
End ForEachRaises.

Lemma search_step_raises (name : string) (acc : list json) (c : json) :
  text_field "name" c = false -> search_step name acc c = Err Unhandled.
Proof.
  unfold search_step, text_field, card_get, dict_get_default.
  destruct c; try reflexivity.
  destruct (dict_get "name" l) as [[]|]; try discriminate; reflexivity.
Qed.

Lemma filter_step_raises (field value : string) (acc : list json) (c : json) :
  text_field field c = false -> filter_step field value acc c = Err Unhandled.
Proof.
  unfold filter_step, text_field, card_get, dict_get_default.
  destruct c; try reflexivity.
  destruct (dict_get field l) as [[]|]; try discriminate; reflexivity.
Qed.

Lemma stats_step_raises (acc : table * table * table) (c : json) :
  countable c = false -> stats_step acc c = Err Unhandled.
Proof.
  destruct acc as [[t r] s]. unfold countable, stats_step.
  destruct c; try reflexivity. cbn [is_record card_get label_of andb bind].
  unfold tally.
  destruct (hashable (dict_get_default "type" (JStr "Unknown") l));
    [|reflexivity].
  destruct (hashable (dict_get_default "rarity" (JStr "Unknown") l));
    [|reflexivity].
  destruct (hashable (dict_get_default "set" (JStr "Unknown") l));
    [discriminate | reflexivity].
Qed.

(** The search goes through every record before it answers: it returns
    the matching records when every record is a map whose [name] is absent
    or a string, and raises otherwise, even when the malformed record comes
    after all the matches. *)
Theorem search_all_or_nothing :
  forall (doc : json) (cards : list json) (name : string),
    truthy doc = true ->
    select_cards doc = Ok (JList cards) ->
    search_cards_by_name doc name =
    if forallb (text_field "name") cards
    then Ok (filter (fun c => contains (lower name) (lower (field_text "name" c))) cards)
    else Err Unhandled.
Proof.
  intros doc cards name Hload Hsel.
  unfold search_cards_by_name. rewrite Hload, Hsel; cbn [negb bind].
  destruct (forallb (text_field "name") cards) eqn:Hrec.
  - now apply search_in_filter.
  - unfold search_in; cbn [py_iter bind].
    apply (for_each_raises (text_field "name") (search_step name)); [|exact (search_step_raises name)|exact Hrec].
    intros acc x Hx. rewrite (search_step_keeps name acc x Hx). eauto.
Qed.

Lemma filter_cards_or_raise (field : string) (doc : json)
      (cards : list json) (value : string) :
  truthy doc = true ->
  select_cards doc = Ok (JList cards) ->
  filter_cards field doc value =
  if forallb (text_field field) cards
  then Ok (filter (fun c => String.eqb (lower (field_text field c)) (lower value)) cards)
  else Err Unhandled.
Proof.
  intros Hload Hsel.
  destruct (forallb (text_field field) cards) eqn:Hrec.
  - now apply filter_cards_filter.
  - unfold filter_cards. rewrite Hload, Hsel; cbn [negb bind].
    unfold filter_in; cbn [py_iter bind].
    apply (for_each_raises (text_field field) (filter_step field value)); [|exact (filter_step_raises field value)|exact Hrec].
    intros acc x Hx. rewrite (filter_step_keeps field value acc x Hx). eauto.
Qed.

(** Each filter goes through every record before it answers: it returns
    the matching records when every record is a map whose filtered field is
    absent or a string, and raises otherwise. *)
Theorem filter_all_or_nothing :
  forall (field : string) (doc : json) (cards : list json) (value : string),
    truthy doc = true ->
    select_cards doc = Ok (JList cards) ->
    filter_cards field doc value =
    if forallb (text_field field) cards
    then Ok (filter (fun c => String.eqb (lower (field_text field c)) (lower value)) cards)
    else Err Unhandled.
Proof.
  intros field doc cards value Hload Hsel. now apply filter_cards_or_raise.
Qed.

Lemma stats_step_returns (acc : table * table * table) (c : json) :
  countable c = true -> exists acc', stats_step acc c = Ok acc'.
Proof.
  destruct acc as [[t r] s]. intros H.
  rewrite (stats_step_countable t r s c H). eauto.
Qed.

(** The statistics succeed exactly when every record is a map whose
    [type], [rarity] and [set] can be keys of a [dict]; one record that is
    not a map, or one label that is a list or a mapping, makes them
    raise. *)
Theorem stats_succeed_iff_countable :
  forall (doc : json) (cards : list json),
    truthy doc = true ->
    select_cards doc = Ok (JList cards) ->
    (forallb countable cards = true -> exists st, get_stats doc = Ok st) /\
    (forallb countable cards = false -> get_stats doc = Err Unhandled).
Proof.
  intros doc cards Hload Hsel.
  unfold get_stats, stats_of. rewrite Hload, Hsel.
  cbn [negb bind py_len py_iter]. split; intros Hrec.
  - destruct (stats_loop cards [] [] [] Hrec) as (t & r & s & Hrun & _).
    unfold table in *. rewrite Hrun. cbn [bind]. eauto.
  - unfold table in *.
    rewrite (for_each_raises countable stats_step stats_step_returns
               stats_step_raises cards _ Hrec).
    reflexivity.
Qed.

(** ** More on the lookup *)

Lemma scan_ids_past (key : string) (before rest : list json) :
  all_before_match key before = true ->
  scan_ids key (before ++ rest) = scan_ids key rest.
Proof.
  induction before as [|b before IH]; intros H; [reflexivity|].
  cbn [all_before_match forallb] in H.
  apply andb_true_iff in H as [Hb Hrest]. apply andb_true_iff in Hb as [Hrec Hid].
  destruct b; try discriminate. cbn [app scan_ids card_get bind].
  cbn [id_matches] in Hid. apply negb_true_iff in Hid. rewrite Hid.
  now apply IH.
Qed.

(** The lookup loop returns at the first match and looks no further: in a
    list whose elements before [x] are maps with another [id], the lookup
    returns [x] when [x] is a map with the [id] asked for, whatever comes
    after it, and raises when [x] is not a map. *)
Theorem lookup_stops_at_first_match :
  forall (before : list json) (x : json) (after : list json)
         (set_id card_id : string),
    all_before_match (composite_key set_id card_id) before = true ->
    (id_matches (composite_key set_id card_id) x = true ->
     get_card_by_id (JList (before ++ x :: after)) set_id card_id = Ok x) /\
    (is_record x = false ->
     get_card_by_id (JList (before ++ x :: after)) set_id card_id = Err Unhandled).
Proof.
  intros before x after set_id card_id Hbefore.
  assert (Hload : truthy (JList (before ++ x :: after)) = true)
    by (destruct before; reflexivity).
  unfold get_card_by_id. rewrite Hload; cbn [negb].
  rewrite (scan_ids_past _ before (x :: after) Hbefore).
  split; intros Hx.
  - destruct x; try discriminate. cbn [id_matches] in Hx.
    cbn [scan_ids card_get bind]. now rewrite Hx.
  - destruct x; try discriminate; reflexivity.
Qed.

Lemma scan_ids_hit (key : string) (cards : list json) (r : json) :
  scan_ids key cards = Ok (Some r) ->
  In r cards /\ id_matches key r = true.
Proof.
  induction cards as [|c rest IH]; [discriminate|].
  cbn [scan_ids]. destruct c; try discriminate. cbn [card_get bind].
  destruct (String.eqb (py_str (dict_get_default "id" JNull l)) key) eqn:Hid.
  - intros H; inversion H; subst. split; [now left | exact Hid].
  - intros H. destruct (IH H) as [Hin Hm]. split; [now right | exact Hm].
Qed.

Lemma found_or_404_ok (hit : option json) (r : json) :
  found_or_404 hit = Ok r -> hit = Some r.
Proof. destruct hit; simpl; congruence. Qed.

Lemma bind_ok {A B : Type} (m : result A) (k : A -> result B) (b : B) :
  bind m k = Ok b -> exists a, m = Ok a /\ k a = Ok b.
Proof. destruct m; simpl; [eauto | discriminate]. Qed.

(** Whatever the document holds, a card the lookup returns is either the
    value bound to the composite key in a top-level mapping, or a map with
    the [id] asked for that is an element of the top-level list, or of the
    list bound to ["cards"]. *)
Theorem lookup_returns_a_stored_card :
  forall (doc : json) (set_id card_id : string) (r : json),
    get_card_by_id doc set_id card_id = Ok r ->
    (exists d, doc = JDict d /\
               dict_get (composite_key set_id card_id) d = Some r) \/
    (id_matches (composite_key set_id card_id) r = true /\
     ((exists l, doc = JList l /\ In r l) \/
      (exists d l, doc = JDict d /\
                   dict_get "cards" d = Some (JList l) /\ In r l))).
Proof.
  intros doc set_id card_id r. unfold get_card_by_id.
  destruct (negb (truthy doc)); [discriminate|].
  destruct doc as [| | | | |l|d]; try discriminate.
  - intros H. apply bind_ok in H as (hit & Hscan & Hfound).
    apply found_or_404_ok in Hfound; subst hit.
    apply scan_ids_hit in Hscan as [Hin Hm].
    right. split; [exact Hm|]. left. now exists l.
  - destruct (dict_get (composite_key set_id card_id) d) as [v|] eqn:Hkey.
    + intros H; inversion H; subst. left. now exists d.
    + intros H. apply bind_ok in H as (items & Hiter & H).
      apply bind_ok in H as (hit & Hscan & Hfound).
      apply found_or_404_ok in Hfound; subst hit.
      apply scan_ids_hit in Hscan as [Hin Hm].
      right. split; [exact Hm|]. right.
      unfold dict_get_default in Hiter.
      destruct (dict_get "cards" d) as [v|] eqn:Hcards.
      * destruct v; try discriminate; cbn [py_iter] in Hiter;
          inversion Hiter; subst items.
        -- apply in_map_iff in Hin as (ch & <- & _). discriminate.
        -- now exists d, l.
        -- apply in_map_iff in Hin as (kv & <- & _). discriminate.
      * cbn [py_iter] in Hiter. inversion Hiter; subst items. destruct Hin.
Qed.

(** ** Which handler gives which error *)

Lemma bind_err {A B : Type} (m : result A) (k : A -> result B) (e : error) :
  bind m k = Err e -> m = Err e \/ exists a, m = Ok a /\ k a = Err e.
Proof. destruct m; simpl; [eauto | intros H; left; congruence]. Qed.

Section ForEachErrors.
Context {A B : Type}.
Variable body : B -> A -> result B.
Hypothesis body_errors : forall acc x e, body acc x = Err e -> e = Unhandled.

Lemma for_each_errors (items : list A) (acc : B) (e : error) :
  for_each body items acc = Err e -> e = Unhandled.
Proof.
  revert acc; induction items as [|x rest IH]; intros acc; [discriminate|].
  cbn [for_each]. intros H.
  apply bind_err in H as [H | (acc' & _ & H)]; eauto.
Qed.
End ForEachErrors.

Lemma card_get_errors (c : json) (k : string) (default : json) (e : error) :
  card_get c k default = Err e -> e = Unhandled.
Proof. destruct c; simpl; congruence. Qed.

Lemma str_lower_errors (v : json) (e : error) :
  str_lower v = Err e -> e = Unhandled.
Proof. destruct v; simpl; congruence. Qed.

Lemma py_iter_errors (v : json) (e : error) :
  py_iter v = Err e -> e = Unhandled.
Proof. destruct v; simpl; congruence. Qed.

Lemma select_cards_errors (doc : json) (e : error) :
  select_cards doc = Err e -> e = Unhandled.
Proof. destruct doc; simpl; congruence. Qed.

Lemma search_step_errors (name : string) (acc : list json) (c : json) (e : error) :
  search_step name acc c = Err e -> e = Unhandled.
Proof.
  unfold search_step. intros H.
  apply bind_err in H as [H | (v & _ & H)]; [now apply card_get_errors in H|].
  apply bind_err in H as [H | (lv & _ & H)]; [now apply str_lower_errors in H|].
  discriminate.
Qed.

Lemma filter_step_errors (field value : string) (acc : list json) (c : json)
      (e : error) :
  filter_step field value acc c = Err e -> e = Unhandled.
Proof.
  unfold filter_step. intros H.
  apply bind_err in H as [H | (v & _ & H)]; [now apply card_get_errors in H|].
  apply bind_err in H as [H | (lv & _ & H)]; [now apply str_lower_errors in H|].
  discriminate.
Qed.

Lemma stats_step_errors (acc : table * table * table) (c : json) (e : error) :
  stats_step acc c = Err e -> e = Unhandled.
Proof.
  destruct acc as [[t r] s].
  destruct (countable c) eqn:Hc.
  - rewrite (stats_step_countable t r s c Hc). discriminate.
  - rewrite (stats_step_raises (t, r, s) c Hc). congruence.
Qed.

Lemma paginate_errors (cards : json) (limit offset : option Z) (e : error) :
  paginate cards limit offset = Err e -> e = Unhandled.
Proof.
  unfold paginate. intros H.
  apply bind_err in H as [H | (v & Hv & H)].
  - destruct cards, offset; simpl in H; congruence.
  - destruct limit as [n|]; [|discriminate].
    destruct (negb (n =? 0)); [|discriminate].
    destruct v; simpl in H; congruence.
Qed.

Lemma scan_ids_errors (key : string) (cards : list json) (e : error) :
  scan_ids key cards = Err e -> e = Unhandled.
Proof.
  induction cards as [|c rest IH]; [discriminate|].
  cbn [scan_ids]. intros H.
  apply bind_err in H as [H | (id & _ & H)]; [now apply card_get_errors in H|].
  destruct (String.eqb (py_str id) key); [discriminate | now apply IH].
Qed.

Lemma loaded_document_errors :
  forall (doc : json),
    truthy doc = true ->
    (forall limit offset e,
       get_all_cards doc limit offset = Err e -> e = Unhandled) /\
    (forall name e,
       search_cards_by_name doc name = Err e -> e = Unhandled) /\
    (forall field value e,
       filter_cards field doc value = Err e -> e = Unhandled) /\
    (forall e, get_stats doc = Err e -> e = Unhandled) /\
    (forall set_id card_id e,
       get_card_by_id doc set_id card_id = Err e ->
       e = Unhandled \/ e = NotFound).
Proof.
  intros doc Hload.
  unfold get_all_cards, search_cards_by_name, filter_cards, get_stats,
    get_card_by_id.
  rewrite Hload; cbn [negb]. split; [|split; [|split; [|split]]].
  - intros limit offset e. apply paginate_errors.
  - intros name e H.
    apply bind_err in H as [H | (cards & _ & H)]; [now apply select_cards_errors in H|].
    unfold search_in in H.
    apply bind_err in H as [H | (items & _ & H)]; [now apply py_iter_errors in H|].
    eapply for_each_errors; [|exact H]. apply search_step_errors.
  - intros field value e H.
    apply bind_err in H as [H | (cards & _ & H)]; [now apply select_cards_errors in H|].
    unfold filter_in in H.
    apply bind_err in H as [H | (items & _ & H)]; [now apply py_iter_errors in H|].
    eapply for_each_errors; [|exact H]. apply filter_step_errors.
  - intros e H.
    apply bind_err in H as [H | (cards & _ & H)]; [now apply select_cards_errors in H|].
    unfold stats_of in H.
    apply bind_err in H as [H | (total & _ & H)];
      [destruct cards; simpl in H; congruence|].
    apply bind_err in H as [H | (items & _ & H)]; [now apply py_iter_errors in H|].
    apply bind_err in H as [H | (acc & _ & H)].
    + eapply for_each_errors; [|exact H]. apply stats_step_errors.
    + destruct acc as [[t r] s]. discriminate.
  - intros set_id card_id e H.
    assert (Hscan : forall items,
              (hit <- scan_ids (composite_key set_id card_id) items ;;
               found_or_404 hit) = Err e -> e = Unhandled \/ e = NotFound).
    { intros items Hs.
      apply bind_err in Hs as [Hs | (hit & _ & Hs)];
        [left; now apply scan_ids_errors in Hs|].
      destruct hit; simpl in Hs; [discriminate|]. right. congruence. }
    destruct doc as [| | | | |l|d]; try (right; congruence).
    + now apply (Hscan l).
    + destruct (dict_get (composite_key set_id card_id) d); [discriminate|].
      apply bind_err in H as [H | (items & _ & H)];
        [left; now apply py_iter_errors in H|].
      now apply (Hscan items).
Qed.

(** Once a document has passed the guard, [NotLoaded] is out: an error of
    the listing, the search, a filter or the statistics is an exception
    raised on the data, and an error of the lookup is that or [NotFound].
    Only the lookup ever answers [NotFound]. *)
Theorem errors_of_a_loaded_document :
  forall (doc : json),
    truthy doc = true ->
    (forall limit offset e,
       get_all_cards doc limit offset = Err e -> e = Unhandled) /\
    (forall name e,
       search_cards_by_name doc name = Err e -> e = Unhandled) /\
    (forall field value e,
       filter_cards field doc value = Err e -> e = Unhandled) /\
    (forall e, get_stats doc = Err e -> e = Unhandled) /\
    (forall set_id card_id e,
       get_card_by_id doc set_id card_id = Err e ->
       e = Unhandled \/ e = NotFound).
Proof.
  intros doc Hload. now apply loaded_document_errors.
Qed.

Lemma startup_serving (file : cards_file) :
  truthy (startup_event file initial_cards_data) = true <-> serving file.
Proof.
  unfold serving. split.
  - destruct file as [doc| |]; cbn [startup_event load_cards_data];
      try discriminate.
    intros H. now exists doc.
  - intros (doc & -> & H). exact H.
Qed.

(** After the startup event, run from the initial state on whatever the
    file holds, each handler answers something else than [NotLoaded] in one
    case only: the file was read, was JSON, and its document is not empty.
    A missing file, a malformed one and the documents [null], [[]], [{}],
    [0], [false] and [""] all end in [NotLoaded]. *)
Theorem served_iff_loaded :
  forall (file : cards_file) (limit offset : option Z)
         (set_id card_id name field value : string),
    (get_all_cards (startup_event file initial_cards_data) limit offset
     <> Err NotLoaded <-> serving file) /\
    (get_card_by_id (startup_event file initial_cards_data) set_id card_id
     <> Err NotLoaded <-> serving file) /\
    (search_cards_by_name (startup_event file initial_cards_data) name
     <> Err NotLoaded <-> serving file) /\
    (filter_cards field (startup_event file initial_cards_data) value
     <> Err NotLoaded <-> serving file) /\
    (get_stats (startup_event file initial_cards_data)
     <> Err NotLoaded <-> serving file).
Proof.
  intros file limit offset set_id card_id name field value.
  rewrite <- (startup_serving file).
  destruct (truthy (startup_event file initial_cards_data)) eqn:Hload.
  - destruct (loaded_document_errors _ Hload) as (Hl & Hs & Hf & Ht & Hk).
    repeat split; try reflexivity; intros _ H.
    + apply Hl in H. discriminate.
    + apply Hk in H. destruct H; discriminate.
    + apply Hs in H. discriminate.
    + apply Hf in H. discriminate.
    + apply Ht in H. discriminate.
  - destruct (falsy_document_not_loaded _ Hload) as (Hl & Hk & Hs & Hf & Ht).
    repeat split; try discriminate; intros H; exfalso; apply H; auto.
Qed.

(** ** More on the search and the filters *)

Lemma contains_empty (hay : string) : contains "" hay = true.
Proof. destruct hay; reflexivity. Qed.

Lemma filter_all {A : Type} (keep : A -> bool) (l : list A) :
  (forall x, keep x = true) -> filter keep l = l.
Proof.
  intros H. induction l as [|x l IH]; simpl; [reflexivity|].
  now rewrite H, IH.
Qed.

(** The empty query matches every name, an absent one included: the
    search for [""] returns the whole record sequence.  That [str.lower]
    leaves the empty string empty is the one fact about it that is used. *)
Theorem empty_query_finds_all :
  forall (doc : json) (cards : list json),
    lower "" = "" ->
    truthy doc = true ->
    select_cards doc = Ok (JList cards) ->
    forallb (text_field "name") cards = true ->
    search_cards_by_name doc "" = Ok cards.
Proof.
  intros doc cards Hempty Hload Hsel Hrec.
  unfold search_cards_by_name. rewrite Hload, Hsel; cbn [negb bind].
  rewrite (search_in_filter cards _ Hrec). f_equal.
  apply filter_all. intros c. rewrite Hempty. apply contains_empty.
Qed.

(** Every record is found again through its own field: filtering by the
    value a record holds, in any case, returns a list that has this record
    in it; a record without the field is found by the empty value. *)
Theorem filter_finds_own_value :
  forall (field : string) (doc : json) (cards : list json) (c : json)
         (value : string),
    truthy doc = true ->
    select_cards doc = Ok (JList cards) ->
    forallb (text_field field) cards = true ->
    In c cards ->
    lower value = lower (field_text field c) ->
    exists found, filter_cards field doc value = Ok found /\ In c found.
Proof.
  intros field doc cards c value Hload Hsel Hrec Hin Hval.
  rewrite (filter_cards_filter field doc cards value Hload Hsel Hrec).
  eexists. split; [reflexivity|].
  apply filter_In. split; [exact Hin|].
  rewrite Hval. apply String.eqb_refl.
Qed.

(** Two values that differ by more than case select disjoint sets of
    records: no record is returned by the same filter for both. *)
Theorem filters_are_disjoint :
  forall (field : string) (doc : json) (cards : list json)
         (value1 value2 : string) (found1 found2 : list json) (c : json),
    truthy doc = true ->
    select_cards doc = Ok (JList cards) ->
    lower value1 <> lower value2 ->
    filter_cards field doc value1 = Ok found1 ->
    filter_cards field doc value2 = Ok found2 ->
    In c found1 -> ~ In c found2.
Proof.
  intros field doc cards value1 value2 found1 found2 c Hload Hsel Hne H1 H2.
  rewrite (filter_cards_or_raise field doc cards value1 Hload Hsel) in H1.
  rewrite (filter_cards_or_raise field doc cards value2 Hload Hsel) in H2.
  destruct (forallb (text_field field) cards); [|discriminate].
  inversion H1; inversion H2; subst.
  rewrite !filter_In. intros [_ Ha] [_ Hb].
  apply String.eqb_eq in Ha, Hb. congruence.
Qed.

(** ** More on the statistics *)

Lemma table_set_in (k : json) (n : Z) (t : table) (k' : json) (x : Z) :
  In (k', x) (table_set k n t) ->
  (In (k', x) t) \/ (x = n /\ (k' = k \/ exists m, In (k', m) t)).
Proof.
  induction t as [|[k0 m] rest IH]; simpl.
  - intros [H|[]]. inversion H; subst. right. split; [reflexivity | now left].
  - destruct (key_eqb k0 k); simpl.
    + intros [H|H].
      * inversion H; subst. right. split; [reflexivity|].
        right. exists m. now left.
      * left. now right.
    + intros [H|H].
      * left. now left.
      * destruct (IH H) as [Hin | (-> & [-> | (m' & Hin)])].
        -- left. now right.
        -- right. split; [reflexivity | now left].
        -- right. split; [reflexivity|]. right. exists m'. now right.
Qed.

Lemma table_set_distinct (k : json) (n : Z) (t : table) :
  distinct_keys t -> distinct_keys (table_set k n t).
Proof.
  induction t as [|[k0 m] rest IH]; simpl.
  - intros _. split; [intros k' x [] | exact I].
  - intros [Hfresh Hrest]. destruct (key_eqb k0 k) eqn:Hk; simpl.
    + split; assumption.
    + split; [|now apply IH].
      intros k' x Hin.
      destruct (table_set_in k n rest k' x Hin)
        as [Hold | (_ & [-> | (m' & Hold)])]; eauto.
Qed.

Lemma table_get_nonneg (k : json) (t : table) :
  positive_counts t -> 0 <= table_get k 0 t.
Proof.
  induction t as [|[k0 m] rest IH]; simpl; intros Hpos; [lia|].
  destruct (key_eqb k0 k).
  - pose proof (Hpos k0 m (or_introl eq_refl)). lia.
  - apply IH. intros k' n Hin. apply (Hpos k' n). now right.
Qed.

Lemma table_set_positive (k : json) (t : table) :
  positive_counts t ->
  positive_counts (table_set k (table_get k 0 t + 1) t).
Proof.
  intros Hpos k' x Hin.
  destruct (table_set_in _ _ _ _ _ Hin) as [Hold | (-> & _)].
  - now apply (Hpos k' x).
  - pose proof (table_get_nonneg k t Hpos). lia.
Qed.

Lemma table_set_length (k : json) (n : Z) (t : table) :
  (List.length (table_set k n t) <= S (List.length t))%nat.
Proof.
  induction t as [|[k0 m] rest IH]; simpl; [lia|].
  destruct (key_eqb k0 k); simpl; lia.
Qed.

Lemma dict_like_step (bound : nat) (k : json) (t : table) :
  dict_like bound t ->
  dict_like (S bound) (table_set k (table_get k 0 t + 1) t).
Proof.
  intros (Hd & Hp & Hl). split; [|split].
  - now apply table_set_distinct.
  - now apply table_set_positive.
  - pose proof (table_set_length k (table_get k 0 t + 1) t). lia.
Qed.

Lemma stats_loop_dict_like (cards : list json) :
  forall bound types rarities sets types' rarities' sets',
    forallb countable cards = true ->
    dict_like bound types -> dict_like bound rarities -> dict_like bound sets ->
    for_each stats_step cards (types, rarities, sets) = Ok (types', rarities', sets') ->
    dict_like (bound + List.length cards) types' /\
    dict_like (bound + List.length cards) rarities' /\
    dict_like (bound + List.length cards) sets'.
Proof.
  induction cards as [|c rest IH];
    intros bound t r s t' r' s' Hrec Ht Hr Hs Hrun.
  - cbn [for_each] in Hrun. inversion Hrun; subst.
    rewrite Nat.add_0_r. repeat split; try apply Ht; try apply Hr; try apply Hs.
  - cbn [forallb] in Hrec. apply andb_true_iff in Hrec as [Hc Hrest].
    cbn [for_each] in Hrun. rewrite (stats_step_countable _ _ _ _ Hc) in Hrun.
    cbn [bind] in Hrun.
    cbn [List.length]. rewrite <- Nat.add_succ_comm.
    refine (IH (S bound) _ _ _ t' r' s' Hrest _ _ _ Hrun);
      now apply dict_like_step.
Qed.

Lemma stats_ok_countable (doc : json) (cards : list json) (st : stats) :
  truthy doc = true ->
  select_cards doc = Ok (JList cards) ->
  get_stats doc = Ok st ->
  forallb countable cards = true /\
  total_cards st = Z.of_nat (List.length cards) /\
  for_each stats_step cards ([], [], []) = Ok (types st, rarities st, sets st).
Proof.
  intros Hload Hsel. unfold get_stats, stats_of. rewrite Hload, Hsel.
  cbn [negb bind py_len py_iter].
  destruct (forallb countable cards) eqn:Hrec.
  - destruct (stats_loop cards [] [] [] Hrec) as (t & r & s & Hrun & _).
    unfold table in *. rewrite Hrun. cbn [bind].
    intros H; inversion H; subst. repeat split.
  - unfold table in *.
    rewrite (for_each_raises countable stats_step stats_step_returns
               stats_step_raises cards _ Hrec).
    discriminate.
Qed.

(** The three tables of a successful [get_stats] are well-formed
    dictionaries: no label appears twice, every count is at least 1, and a
    table has at most as many entries as there are records. *)
Theorem stats_tables_are_dicts :
  forall (doc : json) (cards : list json) (st : stats),
    truthy doc = true ->
    select_cards doc = Ok (JList cards) ->
    get_stats doc = Ok st ->
    dict_like (List.length cards) (types st) /\
    dict_like (List.length cards) (rarities st) /\
    dict_like (List.length cards) (sets st).
Proof.
  intros doc cards st Hload Hsel Hrun.
  destruct (stats_ok_countable doc cards st Hload Hsel Hrun) as (Hrec & _ & Hloop).
  assert (Hempty : dict_like 0 []).
  { split; [exact I | split; [intros k n [] | simpl; lia]]. }
  exact (stats_loop_dict_like cards 0%nat [] [] [] _ _ _ Hrec
           Hempty Hempty Hempty Hloop).
Qed.

Lemma count_label_positive (k : string) (label : json) (cards : list json) :
  1 <= count_label k label cards <->
  exists c, In c cards /\ key_eqb (label_of k c) label = true.
Proof.
  unfold count_label. split.
  - intros H.
    destruct (filter (fun c => key_eqb (label_of k c) label) cards)
      as [|c rest] eqn:Hf; [simpl in H; lia|].
    assert (Hin : In c (filter (fun c => key_eqb (label_of k c) label) cards))
      by (rewrite Hf; now left).
    apply filter_In in Hin. now exists c.
  - intros (c & Hin & Hc).
    assert (Hf : In c (filter (fun c => key_eqb (label_of k c) label) cards))
      by (apply filter_In; now split).
    destruct (filter (fun c => key_eqb (label_of k c) label) cards);
      [destruct Hf | cbn [List.length]; lia].
Qed.

(** A label has a count in a table of a successful [get_stats] exactly
    when some record carries it: looking a label up gives at least 1 if and
    only if a record has this label in the field, ["Unknown"] standing for
    a missing field; any other label is absent from the table. *)
Theorem stats_label_present :
  forall (doc : json) (cards : list json) (st : stats) (label : json),
    truthy doc = true ->
    select_cards doc = Ok (JList cards) ->
    get_stats doc = Ok st ->
    (1 <= table_get label 0 (types st) <->
     exists c, In c cards /\ key_eqb (label_of "type" c) label = true) /\
    (1 <= table_get label 0 (rarities st) <->
     exists c, In c cards /\ key_eqb (label_of "rarity" c) label = true) /\
    (1 <= table_get label 0 (sets st) <->
     exists c, In c cards /\ key_eqb (label_of "set" c) label = true).
Proof.
  intros doc cards st label Hload Hsel Hrun.
  destruct (stats_ok_countable doc cards st Hload Hsel Hrun) as (Hrec & _ & Hloop).
  destruct (stats_loop cards [] [] [] Hrec)
    as (t & r & s & Hrun' & [_ Htg] & [_ Hrg] & [_ Hsg]).
  unfold table in *. rewrite Hloop in Hrun'. inversion Hrun'; subst t r s.
  rewrite Htg, Hrg, Hsg. cbn [table_get].
  rewrite <- !count_label_positive.
  repeat split; lia.
Qed.

(** ** The composite key *)

Lemma no_slash_cons (a : ascii) (s : string) :
  no_slash (String a s) = true -> a <> "/"%char /\ no_slash s = true.
Proof.
  unfold no_slash, string_has. cbn [list_ascii_of_string existsb].
  rewrite negb_true_iff, orb_false_iff. intros [Ha Hs]. split.
  - intros ->. now rewrite Ascii.eqb_refl in Ha.
  - now rewrite negb_true_iff.
Qed.

Lemma split_at_first_slash (s1 s2 c1 c2 : string) :
  no_slash s1 = true -> no_slash s2 = true ->
  s1 ++ "/" ++ c1 = s2 ++ "/" ++ c2 ->
  s1 = s2 /\ c1 = c2.
Proof.
  revert s2; induction s1 as [|a s1 IH]; intros s2 H1 H2 Heq.
  - destruct s2 as [|b s2]; simpl in Heq.
    + inversion Heq. now split.
    + apply no_slash_cons in H2 as [Hb _]. inversion Heq. congruence.
  - apply no_slash_cons in H1 as [Ha H1].
    destruct s2 as [|b s2]; simpl in Heq.
    + inversion Heq. congruence.
    + apply no_slash_cons in H2 as [_ H2]. inversion Heq; subst.
      destruct (IH s2 H1 H2 H3) as [-> ->]. now split.
Qed.

(** Two requests with different path segments never ask for the same
    key: when the set identifiers have no ["/"], as segments of a path do
    not, equal composite keys come from equal set and card identifiers. *)
Theorem composite_key_injective :
  forall (set_id1 card_id1 set_id2 card_id2 : string),
    no_slash set_id1 = true ->
    no_slash set_id2 = true ->
    composite_key set_id1 card_id1 = composite_key set_id2 card_id2 ->
    set_id1 = set_id2 /\ card_id1 = card_id2.
Proof.
  intros s1 c1 s2 c2 H1 H2 Heq. unfold composite_key in Heq.
  simpl in Heq. inversion Heq as [Htail].
  now apply split_at_first_slash.
Qed.

Lemma str_int_no_slash (z : Z) (rest : string) : str_int z <> String "/" rest.
Proof.
  unfold str_int, NilZero.string_of_int, NilZero.string_of_uint.
  destruct (Z.to_int z) as [u|u]; destruct u; simpl; discriminate.
Qed.

(** The lookup compares [str(card.get("id"))] with a key that begins with
    ["/"]; the text of [None], of a boolean, of an integer, of a list and of
    a mapping begins otherwise.  So a record whose [id] is not a [float]
    is matched only when its [id] is the composite key itself, as a
    string: a missing [id] or one of another type is never found. *)
Theorem only_string_ids_match :
  forall (d : list (string * json)) (set_id card_id : string),
    (forall f, dict_get "id" d <> Some (JFloat f)) ->
    id_matches (composite_key set_id card_id) (JDict d) = true ->
    dict_get "id" d = Some (JStr (composite_key set_id card_id)).
Proof.
  intros d set_id card_id Hfloat. cbn [id_matches]. unfold dict_get_default.
  destruct (dict_get "id" d) as [v|] eqn:Hid; [|discriminate].
  intros H. apply String.eqb_eq in H. unfold composite_key in H. simpl in H.
  destruct v as [|b|z|f|s|l|m]; cbn [py_str py_repr] in H.
  - discriminate.
  - destruct b; discriminate.
  - exfalso. exact (str_int_no_slash z _ H).
  - exfalso. exact (Hfloat f eq_refl).
  - now subst.
  - discriminate.
  - discriminate.
Qed.

End Handlers.

(** * Concrete runs

    The counterexamples and the instances below run the handlers on the
    sample documents with [ascii_lower], which is [str.lower] on their
    text: every string in them is ASCII. *)

Lemma not_loaded_before_startup_witness :
  unpublished (startup_event Missing initial_cards_data) /\
  get_all_cards (startup_event Missing initial_cards_data) None (Some 0) = Err NotLoaded /\
  get_stats (startup_event Missing initial_cards_data) = Err NotLoaded.
Proof.
  assert (Hun : unpublished (startup_event Missing initial_cards_data)).
  { right. exists Missing, FileNotFound. split; reflexivity. }
  split; [exact Hun|].
  pose proof (not_loaded_before_startup ascii_lower _ None (Some 0) "" "" "" "" Hun)
    as (Hl & _ & _ & _ & _ & _ & Ht).
  split; [exact Hl | exact Ht].
Defined.

Lemma empty_document_not_loaded_witness :
  (JList [] = JList [] \/ JList [] = JDict []) /\
  get_all_cards (JList []) None (Some 0) = Err NotLoaded /\
  get_stats (JList []) = Err NotLoaded.
Proof.
  assert (H : JList [] = JList [] \/ JList [] = JDict []) by (left; reflexivity).
  split; [exact H|].
  pose proof (empty_document_not_loaded ascii_lower (JList []) None (Some 0) "" "" "" "" H)
    as (Hl & _ & _ & _ & _ & _ & Ht).
  split; [exact Hl | exact Ht].
Defined.

(** A counterexample to C9: the empty mapping has no ["cards"] key and no
    key at all, yet the lookup on it does not fail with [NotFound]; the
    guard turns it down with [NotLoaded] first. *)
Lemma mapping_lookup_counterexample :
  dict_get "cards" [] = None /\
  dict_get (composite_key "A1" "001") [] = None /\
  get_card_by_id (JDict []) "A1" "001" = Err NotLoaded.
Proof. repeat split. Qed.

Lemma mapping_lookup_witness :
  [("first", pikachu); ("second", bulbasaur)] <> [] /\
  id_matches (composite_key "A1" "001") pikachu = true /\
  get_card_by_id by_slot "A1" "001" = Err NotFound.
Proof.
  assert (Hd : [("first", pikachu); ("second", bulbasaur)] <> [])
    by discriminate.
  split; [exact Hd | split; [reflexivity|]].
  exact (proj2 (proj2 (proj2 (mapping_lookup _ "A1" "001" Hd) eq_refl)) eq_refl).
Defined.

(** A counterexample to C1, at three documents.  On a mapping without a
    ["cards"] key the Dataset is the mapping's values, and the lookup fails
    with [NotFound] although the first value has the id asked for.  On a
    mapping keyed by composite key the lookup returns the value bound to the
    key although no record of the Dataset has that id.  On the empty
    sequence the lookup fails with [NotLoaded], not with [NotFound]. *)
Lemma get_card_by_id_counterexample :
  (spec_dataset by_slot = Some [pikachu; bulbasaur] /\
   find (id_matches (composite_key "A1" "001")) [pikachu; bulbasaur] = Some pikachu /\
   get_card_by_id by_slot "A1" "001" = Err NotFound) /\
  (spec_dataset by_key = Some [JDict [("name", JStr "Pikachu")]; bulbasaur] /\
   find (id_matches (composite_key "A1" "001"))
        [JDict [("name", JStr "Pikachu")]; bulbasaur] = None /\
   get_card_by_id by_key "A1" "001" = Ok (JDict [("name", JStr "Pikachu")])) /\
  (spec_dataset (JList []) = Some [] /\
   get_card_by_id (JList []) "A1" "001" = Err NotLoaded).
Proof. repeat split. Qed.

Lemma get_card_by_id_first_match_witness :
  truthy two_cards = true /\
  forallb is_record [pikachu; bulbasaur] = true /\
  get_card_by_id two_cards "A1" "002" = Ok bulbasaur /\
  get_card_by_id two_cards "A1" "003" = Err NotFound /\
  get_card_by_id wrapped "A1" "001" = Ok pikachu.
Proof.
  split; [reflexivity | split; [reflexivity|]]. split; [|split].
  - exact (get_card_by_id_first_match two_cards [pikachu; bulbasaur] "A1" "002"
             eq_refl (or_introl eq_refl) eq_refl).
  - exact (get_card_by_id_first_match two_cards [pikachu; bulbasaur] "A1" "003"
             eq_refl (or_introl eq_refl) eq_refl).
  - refine (get_card_by_id_first_match wrapped [pikachu; bulbasaur] "A1" "001"
              eq_refl (or_intror (ex_intro _ _ _)) eq_refl).
    repeat split.
Defined.

(** A counterexample to C2: [get_card_by_id] finds the record with id
    ["/A1/001"] for the set ["A1"] and not for its lower-cased form ["a1"]. *)
Lemma case_change_counterexample :
  ascii_lower "A1" = "a1" /\
  get_card_by_id two_cards "A1" "001" = Ok pikachu /\
  get_card_by_id two_cards "a1" "001" = Err NotFound.
Proof. repeat split. Qed.

Lemma case_insensitive_argument_witness :
  ascii_lower "FiRe" = ascii_lower "fire" /\ same_results ascii_lower five_cards "FiRe" "fire".
Proof.
  split; [reflexivity|].
  exact (case_insensitive_argument ascii_lower five_cards "FiRe" "fire" eq_refl).
Defined.

(** A counterexample to C3, at two documents.  In a mapping whose
    ["cards"] key is bound to a record, not to a sequence, the Dataset is
    the mapping's values, here the one record; the handlers take the record
    itself as the sequence, so the listing fails on slicing a [dict] and the
    search on the first key of the record, where over the Dataset they
    return the record.  In a mapping without a ["cards"] key the Dataset is
    again the values, and [get_card_by_id] does not go through them. *)
Lemma record_sequence_counterexample :
  (spec_dataset cards_is_record = Some [pikachu] /\
   paginate (JList [pikachu]) None (Some 0) = Ok (JList [pikachu]) /\
   get_all_cards cards_is_record None (Some 0) = Err Unhandled /\
   search_in ascii_lower (JList [pikachu]) "pika" = Ok [pikachu] /\
   search_cards_by_name ascii_lower cards_is_record "pika" = Err Unhandled) /\
  (spec_dataset by_slot = Some [pikachu; bulbasaur] /\
   find (id_matches (composite_key "A1" "001")) [pikachu; bulbasaur] = Some pikachu /\
   get_card_by_id by_slot "A1" "001" = Err NotFound).
Proof. repeat split. Qed.

Lemma record_sequence_witness :
  dict_get "cards" [("first", pikachu); ("second", bulbasaur)] = None /\
  truthy by_slot = true /\
  select_cards by_slot = Ok (JList [pikachu; bulbasaur]) /\
  iterates_over ascii_lower by_slot (JList [pikachu; bulbasaur]).
Proof.
  destruct (record_sequence ascii_lower) as (_ & _ & Hvalues & Hloops).
  pose proof (Hvalues [("first", pikachu); ("second", bulbasaur)] eq_refl)
    as [_ Hsel].
  split; [reflexivity | split; [reflexivity | split; [exact Hsel|]]].
  exact (Hloops by_slot _ eq_refl Hsel).
Defined.

(** A counterexample to C4, at two documents.  The empty sequence is a
    loaded Dataset of length 0, and listing it from offset 0 fails with
    [NotLoaded] where the claim has the empty sequence, which is also the
    entire Dataset.  In a mapping whose ["cards"] key is bound to a record
    the Dataset is the mapping's values, and the listing raises instead of
    returning them. *)
Lemma get_all_cards_counterexample :
  (spec_dataset (JList []) = Some [] /\
   page None 0 [] = [] /\
   get_all_cards (JList []) None (Some 0) = Err NotLoaded) /\
  (spec_dataset cards_is_record = Some [pikachu] /\
   page None 0 [pikachu] = [pikachu] /\
   get_all_cards cards_is_record None (Some 0) = Err Unhandled).
Proof. repeat split. Qed.

Lemma get_all_cards_page_witness :
  truthy five_cards = true /\
  0 <= 1 /\
  (forall n, Some 2 = Some n -> 1 <= n) /\
  get_all_cards five_cards (Some 2) (Some 1) = Ok (JList [charizard; bulbasaur]).
Proof.
  assert (Hlim : forall n, Some 2 = Some n -> 1 <= n)
    by (intros n H; inversion H; lia).
  split; [reflexivity | split; [lia | split; [exact Hlim|]]].
  exact (proj1 (get_all_cards_page five_cards
                  [pikachu; charizard; bulbasaur; charmander; blastoise]
                  (Some 2) 1 eq_refl eq_refl ltac:(lia) Hlim)).
Defined.





(** A counterexample to C7, at two documents.  The empty sequence is a
    loaded Dataset of 0 records, and the statistics fail with [NotLoaded]
    instead of giving a total of 0.  In a mapping whose ["cards"] key is
    bound to a record the Dataset is the mapping's values, one record, and
    the statistics raise instead of giving a total of 1. *)
Lemma get_stats_counterexample :
  (spec_dataset (JList []) = Some [] /\
   get_stats (JList []) = Err NotLoaded) /\
  (spec_dataset cards_is_record = Some [pikachu] /\
   get_stats cards_is_record = Err Unhandled).
Proof. repeat split. Qed.

Lemma get_stats_counts_witness :
  truthy two_cards = true /\
  forallb countable [pikachu; bulbasaur] = true /\
  exists st,
    get_stats two_cards = Ok st /\
    total_cards st = 2 /\
    table_sum (types st) = 2 /\
    table_get (JStr "Common") 0 (rarities st) = 2 /\
    table_get (JStr "common") 0 (rarities st) = 0.
Proof.
  split; [reflexivity | split; [reflexivity|]].
  destruct (get_stats_counts two_cards [pikachu; bulbasaur]
              eq_refl eq_refl eq_refl)
    as (st & Hrun & Htotal & Htypes & _ & _ & Hcount).
  exists st. split; [exact Hrun|]. split; [exact Htotal|].
  split; [now rewrite Htypes, Htotal|].
  split.
  - now rewrite (proj1 (proj2 (Hcount (JStr "Common")))).
  - now rewrite (proj1 (proj2 (Hcount (JStr "common")))).
Defined.

Example scenario_two_cards :
  get_all_cards two_cards None (Some 0) = Ok two_cards /\
  get_card_by_id two_cards "A1" "001" = Ok pikachu /\
  filter_cards_by_rarity ascii_lower two_cards "common" = Ok [pikachu; bulbasaur] /\
  get_stats two_cards =
  Ok (mk_stats 2 [(JStr "Electric", 1); (JStr "Grass", 1)]
               [(JStr "Common", 2)] [(JStr "A1", 2)]).
Proof. repeat split. Qed.

(** The labels of the statistics keep their case: ["Fire"] and ["fire"]
    are two entries. *)
Example stats_labels_keep_case :
  get_stats (JList [charizard; charmander]) =
  Ok (mk_stats 2 [(JStr "Fire", 1); (JStr "fire", 1)]
               [(JStr "Rare", 1); (JStr "Common", 1)] [(JStr "A1", 2)]).
Proof. reflexivity. Qed.

(** A non-empty mapping whose ["cards"] sequence is empty passes the
    guard: the handlers answer with empty results and zero counts. *)
Example empty_cards_key_is_served :
  get_all_cards (JDict [("cards", JList [])]) None (Some 0) = Ok (JList []) /\
  search_cards_by_name ascii_lower (JDict [("cards", JList [])]) "char" = Ok [] /\
  get_stats (JDict [("cards", JList [])]) = Ok (mk_stats 0 [] [] []) /\
  get_card_by_id (JDict [("cards", JList [])]) "A1" "001" = Err NotFound.
Proof. repeat split. Qed.

(** Fields the handlers do not read may hold anything, a [float] for
    instance; in the tables [1], [1.0] and [True] are one key, the first
    one stored. *)
Example float_fields_and_labels :
  search_cards_by_name ascii_lower
    (JList [JDict [("name", JStr "Pikachu");
                   ("weight", JFloat (mk_float "6.0" (Finite (inject_Z 6))))]])
    "PIKA" =
  Ok [JDict [("name", JStr "Pikachu");
             ("weight", JFloat (mk_float "6.0" (Finite (inject_Z 6))))]] /\
  get_stats
    (JList [JDict [("type", JInt 1)];
            JDict [("type", JFloat (mk_float "1.0" (Finite (inject_Z 1))))];
            JDict [("type", JBool true)]]) =
  Ok (mk_stats 3 [(JInt 1, 3)] [(JStr "Unknown", 3)] [(JStr "Unknown", 3)]).
Proof. split; reflexivity. Qed.

(** Every [NaN] of a document is the same object, so two records
    labelled [NaN] are counted under one key. *)
Example nan_labels_are_one_key :
  get_stats
    (JList [JDict [("type", JFloat (mk_float "nan" NaN))];
            JDict [("type", JFloat (mk_float "nan" NaN))]]) =
  Ok (mk_stats 2 [(JFloat (mk_float "nan" NaN), 2)]
               [(JStr "Unknown", 2)] [(JStr "Unknown", 2)]).
Proof. reflexivity. Qed.

(** A record that is not a map, or a [name] that is not a string, makes
    the search raise. *)
Example search_raises_on_malformed_record :
  search_cards_by_name ascii_lower (JList [pikachu; JInt 7]) "pika" = Err Unhandled /\
  search_cards_by_name ascii_lower (JList [JDict [("name", JNull)]]) "pika" = Err Unhandled.
Proof. split; reflexivity. Qed.

Lemma scalar_document_witness :
  truthy (JInt 7) = true /\
  is_container (JInt 7) = false /\
  get_all_cards (JInt 7) (Some 10) (Some 0) = Ok (JList []) /\
  get_stats (JInt 7) = Err Unhandled.
Proof.
  split; [reflexivity | split; [reflexivity|]].
  pose proof (scalar_document ascii_lower (JInt 7) (Some 10) (Some 0) "" "" "" "" ""
                eq_refl eq_refl) as (Hl & _ & _ & _ & Ht).
  split; [exact Hl | exact Ht].
Defined.

Lemma listing_is_a_segment_witness :
  truthy five_cards = true /\
  exists before shown after,
    get_all_cards five_cards (Some (-2)) (Some (-4)) = Ok (JList shown) /\
    [pikachu; charizard; bulbasaur; charmander; blastoise]
    = (before ++ shown ++ after)%list.
Proof.
  split; [reflexivity|].
  exact (listing_is_a_segment five_cards
           [pikachu; charizard; bulbasaur; charmander; blastoise]
           (Some (-2)) (Some (-4)) eq_refl eq_refl).
Defined.

Lemma listing_length_witness :
  truthy five_cards = true /\
  0 <= 3 /\
  (forall n, Some 10 = Some n -> 1 <= n) /\
  exists shown,
    get_all_cards five_cards (Some 10) (Some 3) = Ok (JList shown) /\
    Z.of_nat (List.length shown) = 2.
Proof.
  assert (Hlim : forall n, Some 10 = Some n -> 1 <= n)
    by (intros n H; inversion H; lia).
  split; [reflexivity | split; [lia | split; [exact Hlim|]]].
  exact (listing_length five_cards
           [pikachu; charizard; bulbasaur; charmander; blastoise]
           (Some 10) 3 eq_refl eq_refl ltac:(lia) Hlim).
Defined.

Lemma pages_concatenate_witness :
  truthy five_cards = true /\
  0 <= 1 /\ 1 <= 2 /\
  exists first_page rest,
    get_all_cards five_cards (Some 2) (Some 1) = Ok (JList first_page) /\
    get_all_cards five_cards None (Some (1 + 2)) = Ok (JList rest) /\
    get_all_cards five_cards None (Some 1) = Ok (JList (first_page ++ rest)%list).
Proof.
  split; [reflexivity | split; [lia | split; [lia|]]].
  exact (pages_concatenate five_cards
           [pikachu; charizard; bulbasaur; charmander; blastoise]
           2 1 eq_refl eq_refl ltac:(lia) ltac:(lia)).
Defined.

Lemma search_all_or_nothing_witness :
  truthy (JList [pikachu; JDict [("name", JNull)]]) = true /\
  search_cards_by_name ascii_lower (JList [pikachu; JDict [("name", JNull)]]) "pika" = Err Unhandled.
Proof.
  split; [reflexivity|].
  exact (search_all_or_nothing ascii_lower (JList [pikachu; JDict [("name", JNull)]])
           [pikachu; JDict [("name", JNull)]] "pika" eq_refl eq_refl).
Defined.

Lemma filter_all_or_nothing_witness :
  truthy (JList [pikachu; JDict [("type", JInt 3)]]) = true /\
  filter_cards_by_type ascii_lower (JList [pikachu; JDict [("type", JInt 3)]]) "electric"
  = Err Unhandled /\
  filter_cards_by_rarity ascii_lower (JList [pikachu; JDict [("type", JInt 3)]]) "common"
  = Ok [pikachu].
Proof.
  split; [reflexivity|]. split.
  - exact (filter_all_or_nothing ascii_lower "type" (JList [pikachu; JDict [("type", JInt 3)]])
             [pikachu; JDict [("type", JInt 3)]] "electric" eq_refl eq_refl).
  - exact (filter_all_or_nothing ascii_lower "rarity" (JList [pikachu; JDict [("type", JInt 3)]])
             [pikachu; JDict [("type", JInt 3)]] "common" eq_refl eq_refl).
Defined.

Lemma stats_succeed_iff_countable_witness :
  truthy (JList [pikachu; JDict [("set", JList [])]]) = true /\
  forallb countable [pikachu; JDict [("set", JList [])]] = false /\
  get_stats (JList [pikachu; JDict [("set", JList [])]]) = Err Unhandled.
Proof.
  split; [reflexivity | split; [reflexivity|]].
  exact (proj2 (stats_succeed_iff_countable
                  (JList [pikachu; JDict [("set", JList [])]])
                  [pikachu; JDict [("set", JList [])]] eq_refl eq_refl) eq_refl).
Defined.

Lemma lookup_stops_at_first_match_witness :
  all_before_match (composite_key "A1" "002") [pikachu] = true /\
  id_matches (composite_key "A1" "002") bulbasaur = true /\
  get_card_by_id (JList ([pikachu] ++ bulbasaur :: [JInt 7; JNull])) "A1" "002"
  = Ok bulbasaur /\
  get_card_by_id (JList ([pikachu] ++ JInt 7 :: [bulbasaur])) "A1" "002"
  = Err Unhandled.
Proof.
  split; [reflexivity | split; [reflexivity|]]. split.
  - exact (proj1 (lookup_stops_at_first_match [pikachu] bulbasaur [JInt 7; JNull]
                    "A1" "002" eq_refl) eq_refl).
  - exact (proj2 (lookup_stops_at_first_match [pikachu] (JInt 7) [bulbasaur]
                    "A1" "002" eq_refl) eq_refl).
Defined.

Lemma lookup_returns_a_stored_card_witness :
  get_card_by_id wrapped "A1" "002" = Ok bulbasaur /\
  ((exists d, wrapped = JDict d /\
              dict_get (composite_key "A1" "002") d = Some bulbasaur) \/
   (id_matches (composite_key "A1" "002") bulbasaur = true /\
    ((exists l, wrapped = JList l /\ In bulbasaur l) \/
     (exists d l, wrapped = JDict d /\
                  dict_get "cards" d = Some (JList l) /\ In bulbasaur l)))).
Proof.
  split; [reflexivity|].
  exact (lookup_returns_a_stored_card wrapped "A1" "002" bulbasaur eq_refl).
Defined.

Lemma errors_of_a_loaded_document_witness :
  truthy (JList [JInt 7]) = true /\
  get_stats (JList [JInt 7]) = Err Unhandled /\
  (forall e, get_stats (JList [JInt 7]) = Err e -> e = Unhandled).
Proof.
  split; [reflexivity | split; [reflexivity|]].
  exact (proj1 (proj2 (proj2 (proj2
           (errors_of_a_loaded_document ascii_lower (JList [JInt 7]) eq_refl))))).
Defined.

Lemma empty_query_finds_all_witness :
  ascii_lower "" = "" /\
  truthy by_key = true /\
  forallb (text_field "name") [JDict [("name", JStr "Pikachu")]; bulbasaur] = true /\
  search_cards_by_name ascii_lower by_key "" = Ok [JDict [("name", JStr "Pikachu")]; bulbasaur].
Proof.
  split; [reflexivity | split; [reflexivity | split; [reflexivity|]]].
  exact (empty_query_finds_all ascii_lower by_key
           [JDict [("name", JStr "Pikachu")]; bulbasaur]
           eq_refl eq_refl eq_refl eq_refl).
Defined.

Lemma filter_finds_own_value_witness :
  truthy five_cards = true /\
  In charmander [pikachu; charizard; bulbasaur; charmander; blastoise] /\
  ascii_lower "FIRE" = ascii_lower (field_text "type" charmander) /\
  exists found,
    filter_cards ascii_lower "type" five_cards "FIRE" = Ok found /\ In charmander found.
Proof.
  assert (Hin : In charmander [pikachu; charizard; bulbasaur; charmander; blastoise])
    by (simpl; auto).
  split; [reflexivity | split; [exact Hin | split; [reflexivity|]]].
  exact (filter_finds_own_value ascii_lower "type" five_cards
           [pikachu; charizard; bulbasaur; charmander; blastoise]
           charmander "FIRE" eq_refl eq_refl eq_refl Hin eq_refl).
Defined.

Lemma filters_are_disjoint_witness :
  truthy five_cards = true /\
  ascii_lower "fire" <> ascii_lower "water" /\
  In charizard [charizard; charmander] /\
  ~ In charizard [blastoise].
Proof.
  assert (Hne : ascii_lower "fire" <> ascii_lower "water") by discriminate.
  assert (Hin : In charizard [charizard; charmander]) by (simpl; auto).
  split; [reflexivity | split; [exact Hne | split; [exact Hin|]]].
  exact (filters_are_disjoint ascii_lower "type" five_cards
           [pikachu; charizard; bulbasaur; charmander; blastoise]
           "fire" "water" [charizard; charmander] [blastoise] charizard
           eq_refl eq_refl Hne eq_refl eq_refl Hin).
Defined.

Lemma stats_tables_are_dicts_witness :
  truthy five_cards = true /\
  get_stats five_cards =
  Ok (mk_stats 5
        [(JStr "Electric", 1); (JStr "Fire", 1); (JStr "Grass", 1);
         (JStr "fire", 1); (JStr "Water", 1)]
        [(JStr "Common", 3); (JStr "Rare", 2)]
        [(JStr "A1", 5)]) /\
  dict_like 5 [(JStr "Common", 3); (JStr "Rare", 2)].
Proof.
  split; [reflexivity | split; [reflexivity|]].
  exact (proj1 (proj2
           (stats_tables_are_dicts five_cards
              [pikachu; charizard; bulbasaur; charmander; blastoise]
              _ eq_refl eq_refl eq_refl))).
Defined.

Lemma stats_label_present_witness :
  truthy five_cards = true /\
  exists st,
    get_stats five_cards = Ok st /\
    (1 <= table_get (JStr "fire") 0 (types st) <->
     exists c, In c [pikachu; charizard; bulbasaur; charmander; blastoise] /\
               key_eqb (label_of "type" c) (JStr "fire") = true).
Proof.
  split; [reflexivity|].
  eexists. split; [reflexivity|].
  exact (proj1 (stats_label_present five_cards
                  [pikachu; charizard; bulbasaur; charmander; blastoise]
                  _ (JStr "fire") eq_refl eq_refl eq_refl)).
Defined.

Lemma composite_key_injective_witness :
  no_slash "A1" = true /\
  composite_key "A1" "001" = composite_key "A1" "001" /\
  "A1" = "A1" /\ "001" = "001".
Proof.
  split; [reflexivity | split; [reflexivity|]].
  exact (composite_key_injective "A1" "001" "A1" "001" eq_refl eq_refl eq_refl).
Defined.

Lemma only_string_ids_match_witness :
  (forall f, dict_get "id" [("id", JStr "/A1/001"); ("name", JStr "Pikachu")]
             <> Some (JFloat f)) /\
  id_matches (composite_key "A1" "001")
    (JDict [("id", JStr "/A1/001"); ("name", JStr "Pikachu")]) = true /\
  dict_get "id" [("id", JStr "/A1/001"); ("name", JStr "Pikachu")]
  = Some (JStr (composite_key "A1" "001")).
Proof.
  assert (Hf : forall f, dict_get "id" [("id", JStr "/A1/001"); ("name", JStr "Pikachu")]
                         <> Some (JFloat f)) by (intros f; discriminate).
  split; [exact Hf | split; [reflexivity|]].
  exact (only_string_ids_match [("id", JStr "/A1/001"); ("name", JStr "Pikachu")]
           "A1" "001" Hf eq_refl).
Defined.
